(** * build/rocm/tools/build_wheels.py: a shallow embedding and its properties

    The script drives the ROCm wheel build: it writes the GPU target list,
    launches the build tools as child processes, relays one of their
    output streams while keeping a bounded tail of it, and extracts the
    names of the produced wheels from that tail with a regular expression.

    Python values are embedded as follows.
    - [str] is a sequence of Unicode code points: [text := list Z].
    - [bytes] is [list byte].
    - [dict] objects live in a store and are reached through references,
      as [os.environ] and its copies are.
    - Functions with effects run in the monad [M] over a [World], which
      holds the environment, the files, the two console streams, the log
      and the behaviour of the child processes. *)

From Stdlib Require Import ZArith List Strings.String Strings.Ascii Strings.Byte Lia DecimalString
  DecimalPos DecimalZ.
From stdpp Require Import base option list gmap.

Local Open Scope Z_scope.

(** ** Text and bytes *)

Abbreviation text := (list Z).
Abbreviation bytes := (list byte).

Definition ord (a : ascii) : Z := Z.of_N (N_of_ascii a).

(** A source-code string literal as a [str] value. *)
Definition str (s : string) : text := map ord (list_ascii_of_string s).
Arguments str s%_string.

Definition byte_val (b : byte) : Z := Z.of_N (Byte.to_N b).

(** [s.encode()] for a literal of the source. *)
Definition literal_bytes (s : string) : bytes := list_byte_of_string s.
Arguments literal_bytes s%_string.

Definition NL : Z := 10.
Definition SEP : Z := 47.

(** *** [bytes.decode("utf8")]

    The strict decoder: shortest form only, no surrogates, nothing above
    U+10FFFF.  [None] stands for [UnicodeDecodeError]. *)

Definition in_range (lo hi x : Z) : bool := (lo <=? x) && (x <=? hi).

Definition is_cont (x : Z) : bool := in_range 0x80 0xBF x.

Definition cont_bits (x : Z) : Z := Z.land x 0x3F.

(** Allowed range of the second byte, by lead byte. *)
Definition second_ok (x0 x1 : Z) : bool :=
  if x0 =? 0xE0 then in_range 0xA0 0xBF x1
  else if x0 =? 0xED then in_range 0x80 0x9F x1
  else if x0 =? 0xF0 then in_range 0x90 0xBF x1
  else if x0 =? 0xF4 then in_range 0x80 0x8F x1
  else is_cont x1.

Fixpoint utf8_decode (bs : bytes) : option text :=
  match bs with
  | [] => Some []
  | b0 :: r0 =>
    let x0 := byte_val b0 in
    if x0 <? 0x80 then
      cons x0 <$> utf8_decode r0
    else if in_range 0xC2 0xDF x0 then
      match r0 with
      | b1 :: r1 =>
        let x1 := byte_val b1 in
        if is_cont x1 then
          cons (Z.lor (Z.shiftl (Z.land x0 0x1F) 6) (cont_bits x1))
            <$> utf8_decode r1
        else None
      | _ => None
      end
    else if in_range 0xE0 0xEF x0 then
      match r0 with
      | b1 :: b2 :: r2 =>
        let x1 := byte_val b1 in
        let x2 := byte_val b2 in
        if second_ok x0 x1 && is_cont x2 then
          cons (Z.lor (Z.shiftl (Z.land x0 0x0F) 12)
                  (Z.lor (Z.shiftl (cont_bits x1) 6) (cont_bits x2)))
            <$> utf8_decode r2
        else None
      | _ => None
      end
    else if in_range 0xF0 0xF4 x0 then
      match r0 with
      | b1 :: b2 :: b3 :: r3 =>
        let x1 := byte_val b1 in
        let x2 := byte_val b2 in
        let x3 := byte_val b3 in
        if second_ok x0 x1 && is_cont x2 && is_cont x3 then
          cons (Z.lor (Z.shiftl (Z.land x0 0x07) 18)
                  (Z.lor (Z.shiftl (cont_bits x1) 12)
                     (Z.lor (Z.shiftl (cont_bits x2) 6) (cont_bits x3))))
            <$> utf8_decode r3
        else None
      | _ => None
      end
    else None
  end.

(** ** [collections.deque(maxlen=...)]

    [append] adds on the right and, when the length then exceeds [maxlen],
    drops one item on the left; [extend] appends the items one by one. *)

Module deque.

Record t := make { maxlen : Z; items : text }.

Definition new (maxlen : Z) : t := make maxlen [].

Definition append (d : t) (c : Z) : t :=
  let l := items d ++ [c] in
  make (maxlen d) (if maxlen d <? Z.of_nat (length l) then tail l else l).

Definition extend (d : t) (s : text) : t := fold_left append s d.

End deque.

(** The last [n] items of a sequence (all of it when it is shorter). *)
Definition last_chars (n : Z) (l : text) : text :=
  drop (length l - Z.to_nat n) l.

(** ** The [re] module, for the patterns this script compiles

    A pattern is a sequence of nodes: one atom, an atom under a greedy [+],
    or a group parenthesis.  An atom is a literal character or [.], which
    matches everything but a newline.  [compile] reads the pattern
    syntax: [\.] is a literal dot, [(] and [)] delimit the capturing
    group, and a pattern using any other operator is refused ([None]). *)

Module re.

Inductive atom := Lit (c : Z) | Any.

Inductive node := One (a : atom) | Plus (a : atom) | Open | Close.

Definition is_operator (c : Z) : bool :=
  existsb (Z.eqb c) (str "+*?[]{}|^$").

Fixpoint parse (s : text) : option (list node) :=
  match s with
  | [] => Some []
  | c :: rest =>
    if c =? 40 then cons Open <$> parse rest
    else if c =? 41 then cons Close <$> parse rest
    else if c =? 92 then
      match rest with
      | e :: rest1 =>
        if e =? 46 then
          match rest1 with
          | q :: rest2 =>
            if q =? 43 then cons (Plus (Lit e)) <$> parse rest2
            else cons (One (Lit e)) <$> parse rest1
          | [] => Some [One (Lit e)]
          end
        else None
      | [] => None
      end
    else if is_operator c then None
    else
      let a := if c =? 46 then Any else Lit c in
      match rest with
      | q :: rest1 =>
        if q =? 43 then cons (Plus a) <$> parse rest1
        else cons (One a) <$> parse rest
      | [] => Some [One a]
      end
  end.

(** At most one group, opened before it is closed. *)
Fixpoint groups_ok (depth seen : nat) (p : list node) : bool :=
  match p with
  | [] => Nat.eqb depth 0
  | Open :: p' => Nat.eqb depth 0 && Nat.eqb seen 0 && groups_ok 1 1 p'
  | Close :: p' => Nat.eqb depth 1 && groups_ok 0 seen p'
  | _ :: p' => groups_ok depth seen p'
  end.

Definition compile (s : text) : option (list node) :=
  match parse s with
  | Some p => if groups_ok 0 0 p then Some p else None
  | None => None
  end.

Definition atom_matches (a : atom) (c : Z) : bool :=
  match a with
  | Lit x => c =? x
  | Any => negb (c =? NL)
  end.

(** What group 1 holds while a match is being tried. *)
Inductive capture := NotYet | Capturing (rev_acc : text) | Captured (g : text).

Definition cap_push (c : Z) (k : capture) : capture :=
  match k with
  | Capturing acc => Capturing (c :: acc)
  | _ => k
  end.

Definition cap_open (k : capture) : capture :=
  match k with
  | NotYet => Capturing []
  | _ => k
  end.

Definition cap_close (k : capture) : capture :=
  match k with
  | Capturing acc => Captured (rev acc)
  | _ => k
  end.

(** [pattern.match]: a backtracking match of the whole pattern at the start
    of [s].  A [+] takes as many characters as it can and gives them back
    one at a time while the rest of the pattern fails.  The result is the
    capture and the text left after the match. *)
Fixpoint match_here (p : list node) : text -> capture -> option (capture * text) :=
  match p with
  | [] => fun s k => Some (k, s)
  | One a :: p' => fun s k =>
    match s with
    | c :: s' =>
      if atom_matches a c then match_here p' s' (cap_push c k) else None
    | [] => None
    end
  | Plus a :: p' =>
    fix more (s : text) (k : capture) : option (capture * text) :=
      match s with
      | c :: s' =>
        if atom_matches a c then
          match more s' (cap_push c k) with
          | Some r => Some r
          | None => match_here p' s' (cap_push c k)
          end
        else None
      | [] => None
      end
  | Open :: p' => fun s k => match_here p' s (cap_open k)
  | Close :: p' => fun s k => match_here p' s (cap_close k)
  end.

(** The string [findall] reports for one match: group 1 when the pattern
    has a group, the matched text otherwise. *)
Definition reported (s : text) (r : capture * text) : text :=
  match fst r with
  | Captured g => g
  | _ => take (length s - length (snd r)) s
  end.

(** [findall] scans left to right.  After a match the scan resumes where
    the match ended ([skip] counts the characters still to pass over);
    after a failure, or an empty match, it resumes one character on. *)
Fixpoint findall_from (p : list node) (s : text) (skip : nat) {struct s}
  : list text :=
  match skip with
  | S n =>
    match s with
    | [] => []
    | _ :: s' => findall_from p s' n
    end
  | O =>
    match match_here p s NotYet with
    | Some r =>
      reported s r ::
      match s with
      | [] => []
      | _ :: s' => findall_from p s' (length s - length (snd r) - 1)
      end
    | None =>
      match s with
      | [] => []
      | _ :: s' => findall_from p s' 0
      end
    end
  end.

Definition findall (p : list node) (s : text) : list text :=
  findall_from p s 0.

End re.

(** ** [os.path] (posixpath) *)

Module os_path.

Definition startswith_sep (b : text) : bool :=
  match b with
  | c :: _ => c =? SEP
  | [] => false
  end.

Definition endswith_sep (p : text) : bool :=
  match last p with
  | Some c => c =? SEP
  | None => false
  end.

Definition is_empty (p : text) : bool :=
  match p with
  | [] => true
  | _ => false
  end.

(** One step of [join]: an absolute component restarts the path, and a
    separator is inserted unless the path is empty or already ends in one. *)
Definition join2 (path b : text) : text :=
  if startswith_sep b then b
  else if is_empty path || endswith_sep path then path ++ b
  else path ++ [SEP] ++ b.

Definition join (a : text) (p : list text) : text := fold_left join2 p a.

(** [basename]: what follows the last separator. *)
Fixpoint basename_from (acc p : text) : text :=
  match p with
  | [] => acc
  | c :: r => if c =? SEP then basename_from [] r else basename_from (acc ++ [c]) r
  end.

Definition basename (p : text) : text := basename_from [] p.

End os_path.

(** ** Strings of the script *)

(** [s.split(sep)] for a one-character separator: always at least one part. *)
Fixpoint split (sep : Z) (s : text) : list text :=
  match s with
  | [] => [[]]
  | c :: r =>
    if c =? sep then [] :: split sep r
    else
      match split sep r with
      | p :: ps => (c :: p) :: ps
      | [] => [[c]]
      end
  end.

(** ["%d" % n]. *)
Definition dec (n : Z) : text := str (NilZero.string_of_int (Z.to_int n)).

(** The white space [int] skips at both ends of the ASCII form of its
    argument ([Py_ISSPACE]): space, tab, line feed, vertical tab, form feed,
    carriage return.  The separators U+001C to U+001F are not among them. *)
Definition is_space (c : Z) : bool :=
  (c =? 32) || in_range 9 13 c.

(** White space outside ASCII ([Py_UNICODE_ISSPACE]). *)
Definition unicode_space (c : Z) : bool :=
  (c =? 133) || (c =? 160) || (c =? 5760) || in_range 8192 8202 c
  || (c =? 8232) || (c =? 8233) || (c =? 8239) || (c =? 8287) || (c =? 12288).

(** The digit zero of every run of ten decimal digits outside ASCII
    (general category Nd of Unicode 14.0, the database of CPython 3.11). *)
Definition decimal_zeros : list Z :=
  [1632; 1776; 1984; 2406; 2534; 2662; 2790; 2918; 3046; 3174; 3302; 3430;
   3558; 3664; 3792; 3872; 4160; 4240; 6112; 6160; 6470; 6608; 6784; 6800;
   6992; 7088; 7232; 7248; 42528; 43216; 43264; 43472; 43504; 43600; 44016;
   65296; 66720; 68912; 69734; 69872; 69942; 70096; 70384; 70736; 70864;
   71248; 71360; 71472; 71904; 72016; 72784; 73040; 73120; 92768; 92864;
   93008; 120782; 120792; 120802; 120812; 120822; 123200; 123632; 125264;
   130032].

(** [Py_UNICODE_TODECIMAL] outside ASCII. *)
Definition to_decimal (c : Z) : option Z :=
  (fun z => c - z) <$> List.find (fun z => in_range z (z + 9) c) decimal_zeros.

(** What [int] makes of a character before it parses: ASCII is kept, other
    white space becomes a space, another decimal digit becomes the ASCII
    digit of its value, anything else becomes [?]. *)
Definition to_ascii (c : Z) : Z :=
  if c <? 127 then c
  else if unicode_space c then 32
  else
    match to_decimal c with
    | Some d => 48 + d
    | None => 63
    end.

Fixpoint lstrip (s : text) : text :=
  match s with
  | c :: r => if is_space c then lstrip r else s
  | [] => []
  end.

Definition strip (s : text) : text := rev (lstrip (rev (lstrip s))).

Definition is_digit (c : Z) : bool := in_range 48 57 c.

(** Digits with single underscores between them, most significant first. *)
Fixpoint digits (acc : Z) (after_digit : bool) (s : text) : option Z :=
  match s with
  | [] => if after_digit then Some acc else None
  | c :: r =>
    if in_range 48 57 c then digits (10 * acc + (c - 48)) true r
    else if (c =? 95) && after_digit then digits acc false r
    else None
  end.

(** [sys.int_info.default_max_str_digits]: the longest numeral [int]
    converts (CPython 3.11 and later, and the security releases of 3.7 to
    3.10); the script does not change it. *)
Definition int_max_str_digits : Z := 4300.

Definition digit_count (s : text) : Z :=
  Z.of_nat (length (List.filter is_digit s)).

(** The numeral after the sign. *)
Definition numeral (s : text) : option Z :=
  if digit_count s <=? int_max_str_digits then digits 0 false s else None.

(** [int(s)] for a [str]: white space around, an optional sign, decimal
    digits with single underscores between them.  [None] stands for
    [ValueError]. *)
Definition int (s : text) : option Z :=
  match strip (map to_ascii s) with
  | c :: r =>
    if c =? 45 then Z.opp <$> numeral r
    else if c =? 43 then numeral r
    else numeral (c :: r)
  | [] => None
  end.

(** ** Messages, exceptions and the world *)

(** Operands of the [%] operator. *)
Inductive pyval :=
| VNone
| VStr (s : text)
| VInt (n : Z)
| VStrs (l : list text).

(** A message is kept as the script writes it: a plain string, or a format
    string and its operands ([format % operands]). *)
Inductive message :=
| Plain (s : string)
| Fmt (format : string) (operands : list pyval).

Inductive exn :=
| Exception (m : message)
| UnicodeDecodeError
| KeyError (key : text)
| IndexError
| ValueError
| AttributeError (m : message)
| OSError (path : text)
| TypeError
| re_error
| CalledProcessError (rc : Z) (cmd : list text)
| SystemExit (code : Z).

Abbreviation dict := (gmap text text).

(** A reference to a [dict] object: the mapping behind [os.environ], or an
    object created by the script. *)
Inductive dict_ref := os_environ | dict_obj (n : nat).

Inductive stdio := inherited | PIPE.

Inductive console := sys_stdout | sys_stderr.

(** What a console received: a string written as it is, a message printed
    (with its newline), or the usage lines of the argument parser, which
    [argparse] lays out for the width of the terminal. *)
Inductive output :=
| Written (t : text)
| Printed (m : message)
| Usage (prog : text).

Inductive level := INFO | ERROR.

(** What a child process does: the results of the successive reads on each
    of its output pipes until it closes them ([None] when no data is ready,
    [Some d] for the bytes [d]; reading past the end gives [b""]), its exit
    status and what it changes in the files. *)
Record child := {
  child_stdout : list (option bytes);
  child_stderr : list (option bytes);
  returncode : Z;
  child_files : gmap text text -> gmap text text
}.

(** One call of [subprocess.Popen]. *)
Record launch := {
  l_cmd : list text;
  l_env : option dict_ref;
  l_vars : dict;
  l_cwd : option text;
  l_stdout : stdio;
  l_stderr : stdio
}.

(** What the supplied arguments of the command line are, option by option. *)
Record command_line := {
  cl_rocm_version : option text;
  cl_python_versions : option text;
  cl_xla_path : option text;
  cl_jax_path : option text
}.

(** The part of the world the script reads and never changes.  [prog] is
    the name of the script as [argparse] shows it
    ([os.path.basename(sys.argv[0])]).  [spawn n] is the behaviour of the
    [n]-th process launched, given its command, environment and working
    directory; [None] when it cannot be started, and [refused n] is then the
    file the [OSError] names: the program, or the working directory. *)
Record Host := {
  sys_argv : command_line;
  prog : text;
  isdir : text -> bool;
  writable : text -> bool;
  realpath : text -> text;
  spawn : nat -> list text -> dict -> option text -> option child;
  refused : nat -> list text -> dict -> option text -> text
}.

Record World := {
  host : Host;
  environ : dict;
  dicts : gmap nat dict;
  files : gmap text text;
  out : list output;
  err : list output;
  log : list (level * message);
  launched : list launch
}.

Inductive outcome (A : Type) :=
| Return (a : A)
| Raise (e : exn).
Arguments Return {A} a.
Arguments Raise {A} e.

#[global] Instance outcome_ret : MRet outcome := fun A a => Return a.

#[global] Instance outcome_bind : MBind outcome := fun A B f m =>
  match m with
  | Return a => f a
  | Raise e => Raise e
  end.

Definition or_else {A : Type} (e : exn) (o : option A) : outcome A :=
  match o with
  | Some a => Return a
  | None => Raise e
  end.

(** A computation: from a world to a result, or an exception, and the
    world it leaves. *)
Definition M (A : Type) : Type := World -> outcome A * World.

#[global] Instance M_ret : MRet M := fun A a w => (Return a, w).

#[global] Instance M_bind : MBind M := fun A B f m w =>
  match m w with
  | (Return a, w') => f a w'
  | (Raise e, w') => (Raise e, w')
  end.

Definition raise {A : Type} (e : exn) : M A := fun w => (Raise e, w).

(** A function without effects, called from a computation. *)
Definition call {A : Type} (r : outcome A) : M A := fun w => (r, w).

Definition or_raise {A : Type} (e : exn) (o : option A) : M A :=
  call (or_else e o).

Fixpoint for_each {A : Type} (l : list A) (body : A -> M unit) : M unit :=
  match l with
  | [] => mret tt
  | x :: l' => body x;; for_each l' body
  end.

Definition set_environ (d : dict) (w : World) : World :=
  {| host := host w; environ := d; dicts := dicts w; files := files w;
     out := out w; err := err w; log := log w; launched := launched w |}.

Definition set_dicts (h : gmap nat dict) (w : World) : World :=
  {| host := host w; environ := environ w; dicts := h; files := files w;
     out := out w; err := err w; log := log w; launched := launched w |}.

Definition set_files (f : gmap text text) (w : World) : World :=
  {| host := host w; environ := environ w; dicts := dicts w; files := f;
     out := out w; err := err w; log := log w; launched := launched w |}.

Definition set_out (o : list output) (w : World) : World :=
  {| host := host w; environ := environ w; dicts := dicts w; files := files w;
     out := o; err := err w; log := log w; launched := launched w |}.

Definition set_err (o : list output) (w : World) : World :=
  {| host := host w; environ := environ w; dicts := dicts w; files := files w;
     out := out w; err := o; log := log w; launched := launched w |}.

Definition set_log (l : list (level * message)) (w : World) : World :=
  {| host := host w; environ := environ w; dicts := dicts w; files := files w;
     out := out w; err := err w; log := l; launched := launched w |}.

Definition set_launched (l : list launch) (w : World) : World :=
  {| host := host w; environ := environ w; dicts := dicts w; files := files w;
     out := out w; err := err w; log := log w; launched := l |}.

(** *** [dict] objects *)

Definition deref (r : dict_ref) (w : World) : dict :=
  match r with
  | os_environ => environ w
  | dict_obj n => default ∅ (dicts w !! n)
  end.

(** [dict(r)]: a new object holding a copy of the items of [r]. *)
Definition dict_copy (r : dict_ref) : M dict_ref := fun w =>
  let n := fresh (dom (dicts w)) in
  (Return (dict_obj n), set_dicts (<[n := deref r w]> (dicts w)) w).

(** [r[k] = v] *)
Definition setitem (r : dict_ref) (k v : text) : M unit := fun w =>
  (Return tt,
   match r with
   | os_environ => set_environ (<[k := v]> (environ w)) w
   | dict_obj n => set_dicts (<[n := <[k := v]> (deref r w)]> (dicts w)) w
   end).

(** [r[k]] *)
Definition getitem (r : dict_ref) (k : text) : M text := fun w =>
  match deref r w !! k with
  | Some v => (Return v, w)
  | None => (Raise (KeyError k), w)
  end.

(** *** Console and log *)

Definition emit (c : console) (o : output) : M unit := fun w =>
  (Return tt,
   match c with
   | sys_stdout => set_out (out w ++ [o]) w
   | sys_stderr => set_err (err w ++ [o]) w
   end).

Definition write (c : console) (t : text) : M unit := emit c (Written t).

Definition print (m : message) : M unit := emit sys_stdout (Printed m).

Definition LOG (l : level) (m : message) : M unit := fun w =>
  (Return tt, set_log (log w ++ [(l, m)]) w).

(** *** Files *)

Definition exists_ (p : text) : M bool := fun w =>
  (Return (bool_decide (is_Some (files w !! p)) || isdir (host w) p), w).

Definition os_realpath (p : text) : M text := fun w =>
  (Return (realpath (host w) p), w).

(** Whether [open] for writing succeeds on [p]. *)
Definition can_open (w : World) (p : text) : bool :=
  writable (host w) p && negb (isdir (host w) p).

(** [open(p, "w")]: the file is created or emptied. *)
Definition open_w (p : text) : M text := fun w =>
  if can_open w p
  then (Return p, set_files (<[p := []]> (files w)) w)
  else (Raise (OSError p), w).

(** [open(p, "a")]: the file is created when missing and kept otherwise. *)
Definition open_a (p : text) : M text := fun w =>
  if can_open w p
  then (Return p,
        match files w !! p with
        | Some _ => w
        | None => set_files (<[p := []]> (files w)) w
        end)
  else (Raise (OSError p), w).

(** [fd.write(t)] on a file opened by one of the above. *)
Definition fd_write (fd : text) (t : text) : M unit := fun w =>
  (Return tt, set_files (<[fd := default [] (files w !! fd) ++ t]> (files w)) w).

Definition read_file (p : text) : M text := fun w =>
  match files w !! p with
  | Some c => (Return c, w)
  | None => (Raise (OSError p), w)
  end.

(** [shutil.copy(src, dst)] *)
Definition shutil_copy (src dst : text) : M unit := fun w =>
  let dst' := if isdir (host w) dst
              then os_path.join dst [os_path.basename src] else dst in
  (c ← read_file src; fd ← open_w dst'; fd_write fd c) w.

(** *** Child processes *)

Record process := {
  p_child : child;
  p_stdout : option (list (option bytes));
  p_stderr : option (list (option bytes))
}.

Definition piped (io : stdio) (reads : list (option bytes))
  : option (list (option bytes)) :=
  match io with
  | PIPE => Some reads
  | inherited => None
  end.

(** The variables a child started with [env=env] receives. *)
Definition child_env (env : option dict_ref) (w : World) : dict :=
  match env with
  | Some r => deref r w
  | None => environ w
  end.

(** [subprocess.Popen(cmd, env=env, cwd=cwd, stdout=.., stderr=..)] *)
Definition Popen (cmd : list text) (env : option dict_ref) (cwd : option text)
  (stdout stderr : stdio) : M process := fun w =>
  match spawn (host w) (length (launched w)) cmd (child_env env w) cwd with
  | Some c =>
    (Return {| p_child := c;
               p_stdout := piped stdout (child_stdout c);
               p_stderr := piped stderr (child_stderr c) |},
     set_launched (launched w ++
       [{| l_cmd := cmd; l_env := env; l_vars := child_env env w; l_cwd := cwd;
           l_stdout := stdout; l_stderr := stderr |}]) w)
  | None =>
    (Raise (OSError (refused (host w) (length (launched w)) cmd
                       (child_env env w) cwd)), w)
  end.

(** [p.communicate()] / [p.wait()]: the child has run to its end. *)
Definition communicate (p : process) : M unit := fun w =>
  (Return tt, set_files (child_files (p_child p) (files w)) w).

(** [subprocess.run(cmd, check=True, env=env)] *)
Definition subprocess_run (cmd : list text) (env : option dict_ref) : M unit :=
  p ← Popen cmd env None inherited inherited;
  communicate p;;
  if returncode (p_child p) =? 0 then mret tt
  else raise (CalledProcessError (returncode (p_child p)) cmd).

(** ** The script *)

Definition GPU_DEVICE_TARGETS : text :=
  str "gfx900 gfx906 gfx908 gfx90a gfx940 gfx941 gfx942 gfx1030 gfx1100".

Definition build_rocm_path (rocm_version_str : text) : M text :=
  let path := str "/opt/rocm-" ++ rocm_version_str in
  e ← exists_ path;
  if (e : bool) then mret path
  else os_realpath (str "/opt/rocm").

Definition update_rocm_targets (rocm_path targets : text) : M unit :=
  let target_fp := os_path.join rocm_path [str "bin/target.lst"] in
  let version_fp := os_path.join rocm_path [str ".info/version"] in
  fd ← open_w target_fp;
  fd_write fd (targets ++ [NL]);;
  (* mimic touch *)
  _ ← open_a version_fp;
  mret tt.

Definition to_cpy_ver (python_version : text) : outcome text :=
  let tup := split 46 python_version in
  t0 ← or_else IndexError (tup !! 0%nat);
  major ← or_else ValueError (int t0);
  t1 ← or_else IndexError (tup !! 1%nat);
  minor ← or_else ValueError (int t1);
  mret (str "cp" ++ dec major ++ dec minor).

(** The lines shared by the two drivers and [fix_wheel]:
    [env["PATH"] = "%s:%s" % (py_bin, env["PATH"])]. *)
Definition prepend_PATH (env : dict_ref) (py_bin : text) : M unit :=
  old ← getitem env (str "PATH");
  setitem env (str "PATH") (py_bin ++ str ":" ++ old).

(** The read loop.  Each turn waits for the pipe and reads once:
    [None] means nothing was ready, a non-empty value is decoded, relayed
    and appended to the buffer, an empty one ends the loop. *)
Fixpoint read_loop (redir : console) (cap_fd : list (option bytes))
  (buf : deque.t) : M deque.t :=
  match cap_fd with
  | [] => mret buf
  | dat :: rest =>
    match dat with
    | None => read_loop redir rest buf
    | Some [] => mret buf
    | Some d =>
      t ← or_raise UnicodeDecodeError (utf8_decode d);
      write redir t;;
      read_loop redir rest (deque.extend buf t)
    end
  end.

Fixpoint collect_wheels (matches wheels : list text) : M (list text) :=
  match matches with
  | [] => mret wheels
  | m :: rest =>
    LOG INFO (Fmt "Found built wheel: %r" [VStr m]);;
    collect_wheels rest (wheels ++ [m])
  end.

Definition _run_scan_for_output (cmd : list text) (pattern : list re.node)
  (env : option dict_ref) (cwd : option text) (capture : option text)
  : M (list text) :=
  let buf := deque.new 20000 in
  '(p, redir, cap_fd) ←
    (if decide (capture = Some (str "stderr")) then
       p ← Popen cmd env cwd inherited PIPE;
       mret (p, sys_stderr, p_stderr p)
     else
       p ← Popen cmd env cwd PIPE inherited;
       mret (p, sys_stdout, p_stdout p));
  (* fcntl sets O_NONBLOCK on the pipe, which exists since it was asked for *)
  cap_fd ← or_raise TypeError cap_fd;
  buf ← read_loop redir cap_fd buf;
  (* wait and drain pipes *)
  communicate p;;
  if negb (returncode (p_child p) =? 0) then
    raise (Exception (Fmt "Child process exited with nonzero result: rc=%d"
                        [VInt (returncode (p_child p))]))
  else
    let text := deque.items buf in
    let matches := re.findall pattern text in
    match matches with
    | [] =>
      LOG ERROR (Fmt "No wheel name found in output: %r" [VStr text]);;
      raise (Exception (Plain "No wheel name found in output"))
    | _ => collect_wheels matches []
    end.

Definition build_jaxlib_wheel (jax_path rocm_path python_version : text)
  (xla_path : option text) : M (list text) :=
  let cmd := [
    str "python";
    str "build/build.py";
    str "--enable_rocm";
    str "--build_gpu_plugin";
    str "--gpu_plugin_rocm_version=60";
    str "--rocm_path=" ++ rocm_path
  ] in
  let cmd :=
    match xla_path with
    | Some (c :: x) =>
      cmd ++ [str "--bazel_options=--override_repository=xla=" ++ c :: x]
    | _ => cmd
    end in
  cpy ← call (to_cpy_ver python_version);
  let py_bin := str "/opt/python/" ++ cpy ++ str "-" ++ cpy ++ str "/bin" in
  env ← dict_copy os_environ;
  setitem env (str "JAX_RELEASE") (str "1");;
  setitem env (str "JAXLIB_RELEASE") (str "1");;
  prepend_PATH env py_bin;;
  LOG INFO (Fmt "Running %r from cwd=%r" [VStrs cmd; VStr jax_path]);;
  pattern ← or_raise re_error (re.compile (str "Output wheel: (.+)" ++ [NL]));
  _run_scan_for_output cmd pattern (Some env) (Some jax_path)
    (Some (str "stderr")).

Definition build_jax_wheel (jax_path python_version : text) : M (list text) :=
  let cmd := [
    str "python";
    str "-m";
    str "build"
  ] in
  cpy ← call (to_cpy_ver python_version);
  let py_bin := str "/opt/python/" ++ cpy ++ str "-" ++ cpy ++ str "/bin" in
  env ← dict_copy os_environ;
  setitem env (str "JAX_RELEASE") (str "1");;
  setitem env (str "JAXLIB_RELEASE") (str "1");;
  prepend_PATH env py_bin;;
  LOG INFO (Fmt "Running %r from cwd=%r" [VStrs cmd; VStr jax_path]);;
  pattern ← or_raise re_error
    (re.compile (str "Successfully built jax-.+ and (jax-.+\.whl)" ++ [NL]));
  wheels ← _run_scan_for_output cmd pattern (Some env) (Some jax_path)
    (Some (str "stdout"));
  let paths := map (fun x => os_path.join jax_path [str "dist"; x]) wheels in
  mret paths.

Definition fix_wheel (path jax_path : text) : M unit :=
  env ← dict_copy os_environ;
  let py_bin := str "/opt/python/cp310-cp310/bin" in
  prepend_PATH env py_bin;;
  let cmd := [str "pip"; str "install"; str "auditwheel>=6"] in
  subprocess_run cmd (Some env);;
  let fixwheel_path := os_path.join jax_path [str "build/rocm/tools/fixwheel.py"] in
  let cmd := [str "python"; fixwheel_path; path] in
  subprocess_run cmd (Some env).

Record Namespace := {
  rocm_version : text;
  python_versions : pyval;
  xla_path : option text;
  jax_path : text
}.

(** [parse_args] on a command line made of the declared options and the
    positional argument ([-h] and arguments the parser does not know are
    left out of the model): every option left out takes its declared
    default; without the positional argument [argparse] writes the usage
    lines and its error message to [sys.stderr] and exits with status 2. *)
Definition parse_args : M Namespace := fun w =>
  let cl := sys_argv (host w) in
  match cl_jax_path cl with
  | Some jp =>
    (Return {|
       rocm_version := default (str "6.1.1") (cl_rocm_version cl);
       python_versions :=
         match cl_python_versions cl with
         | Some s => VStr s
         | None => VStrs [str "3.10.19,3.12"]
         end;
       xla_path := cl_xla_path cl;
       jax_path := jp |}, w)
  | None =>
    (emit sys_stderr (Usage (prog (host w)));;
     write sys_stderr
       (prog (host w)
        ++ str ": error: the following arguments are required: jax_path"
        ++ [NL]);;
     raise (SystemExit 2)) w
  end.

(** [v.split(sep)]: a method of [str] only. *)
Definition split_method (v : pyval) (sep : Z) : M (list text) :=
  match v with
  | VStr s => mret (split sep s)
  | VStrs _ => raise (AttributeError (Plain "'list' object has no attribute 'split'"))
  | VInt _ => raise (AttributeError (Plain "'int' object has no attribute 'split'"))
  | VNone => raise (AttributeError (Plain "'NoneType' object has no attribute 'split'"))
  end.

Definition opt_val (o : option text) : pyval :=
  match o with
  | Some s => VStr s
  | None => VNone
  end.

Definition main : M unit :=
  args ← parse_args;
  python_versions ← split_method (python_versions args) 44;
  print (Fmt "ROCM_VERSION=%s" [VStr (rocm_version args)]);;
  print (Fmt "PYTHON_VERSIONS=%r" [VStrs python_versions]);;
  print (Fmt "JAX_PATH=%s" [VStr (jax_path args)]);;
  print (Fmt "XLA_PATH=%s" [opt_val (xla_path args)]);;
  rocm_path ← build_rocm_path (rocm_version args);
  update_rocm_targets rocm_path GPU_DEVICE_TARGETS;;
  for_each python_versions (fun py =>
    wheel_paths ← build_jaxlib_wheel (jax_path args) rocm_path py (xla_path args);
    for_each wheel_paths (fun wheel_path =>
      fix_wheel wheel_path (jax_path args)));;
  (* build JAX wheel for completeness *)
  last_py ← or_raise IndexError (last python_versions);
  jax_wheels ← build_jax_wheel (jax_path args) last_py;
  (* copy jax wheel(s) to wheelhouse *)
  let wheelhouse_dir := str "/wheelhouse/" in
  for_each jax_wheels (fun whl =>
    LOG INFO (Fmt "Copying %s into %s" [VStr whl; VStr wheelhouse_dir]);;
    shutil_copy whl wheelhouse_dir).

(** ** Vocabulary of the statements *)

(** The chunks a read loop takes from a pipe: the non-empty values read
    before the first empty one. *)
Fixpoint chunks_read (cap_fd : list (option bytes)) : list bytes :=
  match cap_fd with
  | [] => []
  | None :: rest => chunks_read rest
  | Some [] :: _ => []
  | Some d :: rest => d :: chunks_read rest
  end.

Definition decodes (d : bytes) : bool :=
  match utf8_decode d with
  | Some _ => true
  | None => false
  end.

(** The chunks decoded one by one, up to the first that fails. *)
Fixpoint decoded_chunks (ds : list bytes) : list text :=
  match ds with
  | [] => []
  | d :: rest =>
    match utf8_decode d with
    | Some t => t :: decoded_chunks rest
    | None => []
    end
  end.

(** The world after the texts [ts] were written to a console. *)
Definition relayed (c : console) (ts : list text) (w : World) : World :=
  match c with
  | sys_stdout => set_out (out w ++ map Written ts) w
  | sys_stderr => set_err (err w ++ map Written ts) w
  end.

(** The world after [Popen] recorded a launch. *)
Definition launch_recorded (cmd : list text) (env : option dict_ref)
  (cwd : option text) (stdout stderr : stdio) (w : World) : World :=
  set_launched (launched w ++
    [{| l_cmd := cmd; l_env := env; l_vars := child_env env w;
        l_cwd := cwd; l_stdout := stdout; l_stderr := stderr |}]) w.

(** The next process the world starts for this command is [c]. *)
Definition launches (w : World) (cmd : list text) (env : option dict_ref)
  (cwd : option text) (c : child) : Prop :=
  spawn (host w) (length (launched w)) cmd (child_env env w) cwd = Some c.

(** The pipe the runner reads for a given [capture] argument. *)
Definition captured_pipe (capture : option text) (c : child)
  : list (option bytes) :=
  if decide (capture = Some (str "stderr")) then child_stderr c
  else child_stdout c.


(** The text the buffer holds when the loop ends. *)
Definition captured_text (capture : option text) (c : child) : text :=
  last_chars 20000
    (concat (decoded_chunks (chunks_read (captured_pipe capture c)))).

(** The pattern matches nowhere in [s]. *)
Definition no_occurrence (p : list re.node) (s : text) : Prop :=
  forall i : nat, re.match_here p (drop i s) re.NotYet = None.

(** [occurrences p s ms]: scanning [s] from the left, the pattern matches
    first after a prefix in which it matches nowhere, the match is not
    empty, and the scan goes on in the text left after it; [ms] lists what
    each match reports, in that order. *)
Inductive occurrences (p : list re.node) : text -> list text -> Prop :=
| occ_none (s : text) :
    no_occurrence p s -> occurrences p s []
| occ_next (pre s : text) (r : re.capture * text) (ms : list text) :
    (forall i : nat, (i < length pre)%nat ->
       re.match_here p (drop i (pre ++ s)) re.NotYet = None) ->
    re.match_here p s re.NotYet = Some r ->
    (length (snd r) < length s)%nat ->
    occurrences p (snd r) ms ->
    occurrences p (pre ++ s) (re.reported s r :: ms).

Definition found_log (ms : list text) : list (level * message) :=
  map (fun m => (INFO, Fmt "Found built wheel: %r" [VStr m])) ms.

(** What the runner does once its child [c] is launched, in closed form:
    [reads] is the captured pipe and [redir] the console it is relayed to. *)
Definition scan_outcome (redir : console) (reads : list (option bytes))
  (c : child) (pattern : list re.node) (w : World)
  : outcome (list text) * World :=
  let ds := chunks_read reads in
  let w2 := relayed redir (decoded_chunks ds) w in
  if forallb decodes ds then
    let w3 := set_files (child_files c (files w2)) w2 in
    if returncode c =? 0 then
      let text := last_chars 20000 (concat (decoded_chunks ds)) in
      match re.findall pattern text with
      | [] =>
        (Raise (Exception (Plain "No wheel name found in output")),
         set_log (log w3 ++
           [(ERROR, Fmt "No wheel name found in output: %r" [VStr text])]) w3)
      | ms => (Return ms, set_log (log w3 ++ found_log ms) w3)
      end
    else
      (Raise (Exception (Fmt "Child process exited with nonzero result: rc=%d"
                           [VInt (returncode c)])), w3)
  else (Raise UnicodeDecodeError, w2).

(** Whatever is launched next in [w] behaves as [c]. *)
Definition next_child (w : World) (c : child) : Prop :=
  forall (cmd : list text) (vars : dict) (cwd : option text),
  spawn (host w) (length (launched w)) cmd vars cwd = Some c.

(** The interpreter directory of the drivers. *)
Definition py_bin_of (cpy : text) : text :=
  str "/opt/python/" ++ cpy ++ str "-" ++ cpy ++ str "/bin".

(** The environment overlay: the variables [e] with the two release flags
    set and [py_bin] put in front of the search path [old]. *)
Definition env_overlay (py_bin old : text) (e : dict) : dict :=
  <[str "PATH" := py_bin ++ str ":" ++ old]>
    (<[str "JAXLIB_RELEASE" := str "1"]> (<[str "JAX_RELEASE" := str "1"]> e)).

(** The world after a driver has built the overlay and logged its command. *)
Definition overlay_built (py_bin old : text) (m : message) (w : World) : World :=
  set_log (log w ++ [(INFO, m)])
    (set_dicts (<[fresh (dom (dicts w)) := env_overlay py_bin old (environ w)]>
                  (dicts w)) w).

(** The world after a driver failed to find [PATH]. *)
Definition overlay_failed (w : World) : World :=
  set_dicts (<[fresh (dom (dicts w)) :=
                <[str "JAXLIB_RELEASE" := str "1"]>
                  (<[str "JAX_RELEASE" := str "1"]> (environ w))]>
               (dicts w)) w.

(** A byte of plain ASCII. *)
Definition is_ascii (b : byte) : bool := byte_val b <? 128.

(** What a driver leaves of the environments: the mapping behind
    [os.environ] and the objects that existed are as they were, and a
    process, if one was launched, received a new object holding the
    overlay. *)
Definition overlay_frame (python_version : text) (w w' : World) : Prop :=
  environ w' = environ w
  /\ (forall (n : nat) (d : dict), dicts w !! n = Some d -> dicts w' !! n = Some d)
  /\ (launched w' = launched w
      \/ exists (l : launch) (n : nat) (cpy old : text),
           launched w' = launched w ++ [l]
           /\ to_cpy_ver python_version = Return cpy
           /\ environ w !! str "PATH" = Some old
           /\ l_env l = Some (dict_obj n)
           /\ dicts w !! n = None
           /\ l_vars l = env_overlay (py_bin_of cpy) old (environ w)).

(** ** Sample worlds *)

(** A child that writes the given reads, exits with [rc] and touches no
    file. *)
Definition sample_child (stdout stderr : list (option bytes)) (rc : Z) : child :=
  {| child_stdout := stdout; child_stderr := stderr; returncode := rc;
     child_files := fun f => f |}.

(** A host on which every launch behaves as [c]. *)
Definition sample_host (c : child) : Host :=
  {| sys_argv := {| cl_rocm_version := None; cl_python_versions := None;
                    cl_xla_path := None; cl_jax_path := Some (str "/src/jax") |};
     prog := str "build_wheels.py";
     isdir := fun p => bool_decide (p = str "/wheelhouse/");
     writable := fun _ => true;
     realpath := fun p => p;
     spawn := fun _ _ _ _ => Some c;
     refused := fun _ cmd _ _ => default [] (head cmd) |}.

Definition sample_world (c : child) : World :=
  {| host := sample_host c;
     environ := {[ str "PATH" := str "/usr/bin" ]};
     dicts := ∅; files := ∅; out := []; err := []; log := []; launched := [] |}.

Definition wheel_line : bytes :=
  literal_bytes "Output wheel: /tmp/out/pkg-1.0-cp310.whl" ++ [x0a].

(** The pattern of [build_jaxlib_wheel], compiled. *)
Definition wheel_pattern : list re.node :=
  default [] (re.compile (str "Output wheel: (.+)" ++ [NL])).


Definition build_line_parenthesised : bytes :=
  literal_bytes "Successfully built jax-1.0 and (jax-1.0-py3-none-any.whl)"
  ++ [x0a].

Definition build_line : bytes :=
  literal_bytes "Successfully built jax-1.0 and jax-1.0-py3-none-any.whl"
  ++ [x0a].

(** A toolkit directory that already holds a target list and a version
    marker. *)
Definition rocm_world : World :=
  set_files {[ str "/opt/rocm/bin/target.lst" := str "gfx803" ++ [NL];
               str "/opt/rocm/.info/version" := str "6.1.1-136" ]}
    (sample_world (sample_child [] [] 0)).


(** The script started without any argument. *)
Definition bare_world : World :=
  {| host := {| sys_argv := {| cl_rocm_version := None;
                               cl_python_versions := None;
                               cl_xla_path := None; cl_jax_path := None |};
                prog := str "build_wheels.py";
                isdir := fun _ => false;
                writable := fun _ => true;
                realpath := fun p => p;
                spawn := fun _ _ _ _ => None;
                refused := fun _ cmd _ _ => default [] (head cmd) |};
     environ := {[ str "PATH" := str "/usr/bin" ]};
     dicts := ∅; files := ∅; out := []; err := []; log := []; launched := [] |}.

(** A build that goes well: every child writes both result lines, exits
    with status 0 and leaves the pure wheel in [dist]. *)
Definition good_child : child :=
  {| child_stdout := [Some build_line];
     child_stderr := [Some wheel_line];
     returncode := 0;
     child_files := fun f =>
       <[str "/src/jax/dist/jax-1.0-py3-none-any.whl" := str "PK"]> f |}.

Definition good_world : World :=
  {| host := {| sys_argv := {| cl_rocm_version := None;
                               cl_python_versions := Some (str "3.10,3.12");
                               cl_xla_path := None;
                               cl_jax_path := Some (str "/src/jax") |};
                prog := str "build_wheels.py";
                isdir := fun p => bool_decide (p = str "/wheelhouse/");
                writable := fun _ => true;
                realpath := fun p => p;
                spawn := fun _ _ _ _ => Some good_child;
                refused := fun _ cmd _ _ => default [] (head cmd) |};
     environ := {[ str "PATH" := str "/usr/bin" ]};
     dicts := ∅; files := ∅; out := []; err := []; log := []; launched := [] |}.

(** ** Further vocabulary *)

(** The nodes of a run of literal characters. *)
Definition lits (l : text) : list re.node :=
  map (fun c => re.One (re.Lit c)) l.

(** The capture after the characters [l] were consumed one by one. *)
Definition cap_pushes (l : text) (k : re.capture) : re.capture :=
  fold_left (fun k c => re.cap_push c k) l k.

Definition no_newline (g : text) : bool :=
  forallb (fun c => negb (c =? NL)) g.

(** The pattern of [build_jax_wheel], compiled. *)
Definition build_pattern : list re.node :=
  default []
    (re.compile (str "Successfully built jax-.+ and (jax-.+\.whl)" ++ [NL])).

(** A world in which only the paths accepted by [f] can be opened for
    writing. *)
Definition set_writable (f : text -> bool) (w : World) : World :=
  set_files (files w)
    {| host := {| sys_argv := sys_argv (host w); prog := prog (host w);
                  isdir := isdir (host w);
                  writable := f; realpath := realpath (host w);
                  spawn := spawn (host w); refused := refused (host w) |};
       environ := environ w; dicts := dicts w; files := files w;
       out := out w; err := err w; log := log w; launched := launched w |}.

Definition no_dot (s : text) : bool := forallb (fun c => negb (c =? 46)) s.

(** The process launched [k] launches from now behaves as [c], whatever
    it is asked to run. *)
Definition later_child (w : World) (k : nat) (c : child) : Prop :=
  forall (cmd : list text) (vars : dict) (cwd : option text),
  spawn (host w) (length (launched w) + k) cmd vars cwd = Some c.

(** The variables [fix_wheel] gives to the repair tools. *)
Definition fix_env (old : text) (e : dict) : dict :=
  <[str "PATH" := str "/opt/python/cp310-cp310/bin" ++ str ":" ++ old]> e.

(** A launch of [subprocess.run]: no working directory, nothing piped. *)
Definition plain_launch (cmd : list text) (n : nat) (vars : dict) : launch :=
  {| l_cmd := cmd; l_env := Some (dict_obj n); l_vars := vars;
     l_cwd := None; l_stdout := inherited; l_stderr := inherited |}.

(** A host whose first launch behaves as [c1] and every later one as [c2]. *)
Definition two_step_world (c1 c2 : child) : World :=
  {| host := {| sys_argv := {| cl_rocm_version := None;
                               cl_python_versions := Some (str "3.10,3.12");
                               cl_xla_path := None;
                               cl_jax_path := Some (str "/src/jax") |};
                prog := str "build_wheels.py";
                isdir := fun p => bool_decide (p = str "/wheelhouse/");
                writable := fun _ => true;
                realpath := fun p => p;
                spawn := fun n _ _ _ =>
                  Some (if Nat.eqb n 0 then c1 else c2);
                refused := fun _ cmd _ _ => default [] (head cmd) |};
     environ := {[ str "PATH" := str "/usr/bin" ]};
     dicts := ∅; files := ∅; out := []; err := []; log := []; launched := [] |}.

(** The four lines [main] prints first. *)
Definition banner (ns : Namespace) (versions : list text) : list output :=
  [Printed (Fmt "ROCM_VERSION=%s" [VStr (rocm_version ns)]);
   Printed (Fmt "PYTHON_VERSIONS=%r" [VStrs versions]);
   Printed (Fmt "JAX_PATH=%s" [VStr (jax_path ns)]);
   Printed (Fmt "XLA_PATH=%s" [opt_val (xla_path ns)])].

(** The namespace [parse_args] builds when the versions and the source
    directory are given. *)
Definition namespace_of (cl : command_line) (s jp : text) : Namespace :=
  {| rocm_version := default (str "6.1.1") (cl_rocm_version cl);
     python_versions := VStr s;
     xla_path := cl_xla_path cl;
     jax_path := jp |}.

(** A world in which [--python-versions] was given as [s]. *)
Definition with_versions (s : text) (w : World) : World :=
    {| host := {| sys_argv :=
                    {| cl_rocm_version := cl_rocm_version (sys_argv (host w));
                       cl_python_versions := Some s;
                       cl_xla_path := cl_xla_path (sys_argv (host w));
                       cl_jax_path := cl_jax_path (sys_argv (host w)) |};
                  prog := prog (host w);
                  isdir := isdir (host w); writable := writable (host w);
                  realpath := realpath (host w); spawn := spawn (host w);
                  refused := refused (host w) |};
       environ := environ w; dicts := dicts w; files := files w;
       out := out w; err := err w; log := log w; launched := launched w |}.

(** The command of [build_jaxlib_wheel]. *)
Definition jaxlib_cmd (rocm_path : text) (xla_path : option text) : list text :=
  [str "python"; str "build/build.py"; str "--enable_rocm";
   str "--build_gpu_plugin"; str "--gpu_plugin_rocm_version=60";
   str "--rocm_path=" ++ rocm_path]
  ++ match xla_path with
     | Some (c :: x) =>
       [str "--bazel_options=--override_repository=xla=" ++ c :: x]
     | _ => []
     end.



(** * Properties *)

(** ** Worked examples *)

Example utf8_decode_ascii :
  utf8_decode (literal_bytes "ok") = Some (str "ok").
Proof. reflexivity. Qed.

(** U+00E9 is C3 A9, U+20AC is E2 82 AC, U+1F600 is F0 9F 98 80. *)
Example utf8_decode_multibyte :
  utf8_decode [xc3; xa9; xe2; x82; xac; xf0; x9f; x98; x80]
  = Some [0xE9; 0x20AC; 0x1F600].
Proof. reflexivity. Qed.

(** A lone lead byte, an overlong form and a surrogate are refused. *)
Example utf8_decode_refused :
  utf8_decode [xc3] = None /\ utf8_decode [xc0; x80] = None
  /\ utf8_decode [xed; xa0; x80] = None.
Proof. repeat split; reflexivity. Qed.

Example deque_extend_evicts :
  deque.items (deque.extend (deque.make 3 (str "ab")) (str "cde")) = str "cde"
  /\ deque.items (deque.extend (deque.new 3) (str "abcdefg")) = str "efg".
Proof. split; reflexivity. Qed.

Example compile_jaxlib_pattern :
  re.compile (str "Output wheel: (.+)" ++ [NL])
  = Some (map (fun c => re.One (re.Lit c)) (str "Output wheel: ")
          ++ [re.Open; re.Plus re.Any; re.Close; re.One (re.Lit NL)]).
Proof. reflexivity. Qed.

Example findall_two_lines :
  (p ← re.compile (str "Output wheel: (.+)" ++ [NL]);
   Some (re.findall p (str "x" ++ [NL] ++ str "Output wheel: a.whl" ++ [NL]
                       ++ str "INFO Output wheel: /b c" ++ [NL] ++ str "Output wheel: " ++ [NL])))
  = Some [str "a.whl"; str "/b c"].
Proof. reflexivity. Qed.

Example findall_greedy_backtracks :
  (p ← re.compile (str "a.+b(.+)c");
   Some (re.findall p (str "a1b2b3c4c5" ++ [NL] ++ str "axbyc")))
  = Some [str "3c4"; str "y"].
Proof. reflexivity. Qed.

Example join_examples :
  os_path.join (str "/src/jax") [str "dist"; str "x.whl"] = str "/src/jax/dist/x.whl"
  /\ os_path.join (str "/src/jax/") [str "dist"; str "x.whl"] = str "/src/jax/dist/x.whl"
  /\ os_path.join (str "") [str "dist"; str "x.whl"] = str "dist/x.whl"
  /\ os_path.join (str "/src") [str "dist"; str "/abs/x.whl"] = str "/abs/x.whl"
  /\ os_path.basename (str "/a/b/c.whl") = str "c.whl"
  /\ os_path.basename (str "/a/b/") = str "".
Proof. repeat split; reflexivity. Qed.

Example to_cpy_ver_examples :
  to_cpy_ver (str "3.10") = Return (str "cp310")
  /\ to_cpy_ver (str "3.10.19") = Return (str "cp310")
  /\ to_cpy_ver (str "3") = Raise IndexError
  /\ to_cpy_ver (str "3.x") = Raise ValueError
  /\ to_cpy_ver (str "3.10.19,3.12") = Return (str "cp310")
  /\ to_cpy_ver (str "") = Raise ValueError.
Proof. repeat split; reflexivity. Qed.

(** ** The monad *)

Lemma bind_Return {A B : Type} (m : M A) (f : A -> M B) (w w' : World) (a : A) :
  m w = (Return a, w') -> (m ≫= f) w = f a w'.
Proof. intros H. unfold mbind, M_bind. rewrite H. reflexivity. Qed.

Lemma bind_Raise {A B : Type} (m : M A) (f : A -> M B) (w w' : World) (e : exn) :
  m w = (Raise e, w') -> (m ≫= f) w = (Raise e, w').
Proof. intros H. unfold mbind, M_bind. rewrite H. reflexivity. Qed.

Lemma call_Return {A : Type} (r : outcome A) (a : A) (w : World) :
  r = Return a -> call r w = (Return a, w).
Proof. intros ->. reflexivity. Qed.

Lemma call_Raise {A : Type} (r : outcome A) (e : exn) (w : World) :
  r = Raise e -> call r w = (@Raise A e, w).
Proof. intros ->. reflexivity. Qed.

Lemma snd_bind_mret {A B : Type} (m : M A) (f : A -> B) (w : World) :
  snd ((x ← m; mret (f x)) w) = snd (m w).
Proof.
  unfold mbind, M_bind. destruct (m w) as [[a|e] w']; reflexivity.
Qed.

(** ** The decoder *)

Lemma fmap_cons_app (c : Z) (o : option text) (x y : text) :
  cons c <$> o = Some x -> forall o', (forall t, o = Some t -> o' = Some (t ++ y)) ->
  cons c <$> o' = Some (x ++ y).
Proof.
  intros H o' Ho'. destruct o as [t|]; simpl in H; [|discriminate].
  injection H as <-. rewrite (Ho' t eq_refl). reflexivity.
Qed.

(** Decoding is compatible with concatenation: chunks that decode one by
    one decode, once joined, to the joined texts. *)
Lemma utf8_decode_app (a b : bytes) (x y : text) :
  utf8_decode a = Some x -> utf8_decode b = Some y ->
  utf8_decode (a ++ b) = Some (x ++ y).
Proof.
  intros Ha Hb. revert x Ha.
  induction a as [a IH] using (induction_ltof1 _ (@length byte)).
  unfold ltof in IH. intros x Ha. destruct a as [|b0 r0].
  - simpl in Ha. injection Ha as <-. exact Hb.
  - rewrite <- app_comm_cons. simpl in Ha |- *.
    destruct (byte_val b0 <? 128).
    { eapply fmap_cons_app; [exact Ha|]. intros t Ht. apply IH; [simpl; lia|exact Ht]. }
    destruct (in_range 194 223 (byte_val b0)).
    { destruct r0 as [|b1 r1]; [discriminate|]. rewrite <- app_comm_cons.
      destruct (is_cont (byte_val b1)); [|discriminate].
      eapply fmap_cons_app; [exact Ha|]. intros t Ht. apply IH; [simpl; lia|exact Ht]. }
    destruct (in_range 224 239 (byte_val b0)).
    { destruct r0 as [|b1 [|b2 r2]]; try discriminate. rewrite <- !app_comm_cons.
      destruct (second_ok (byte_val b0) (byte_val b1) && is_cont (byte_val b2));
        [|discriminate].
      eapply fmap_cons_app; [exact Ha|]. intros t Ht. apply IH; [simpl; lia|exact Ht]. }
    destruct (in_range 240 244 (byte_val b0)); [|discriminate].
    destruct r0 as [|b1 [|b2 [|b3 r3]]]; try discriminate. rewrite <- !app_comm_cons.
    destruct (second_ok (byte_val b0) (byte_val b1) && is_cont (byte_val b2)
              && is_cont (byte_val b3)); [|discriminate].
    eapply fmap_cons_app; [exact Ha|]. intros t Ht. apply IH; [simpl; lia|exact Ht].
Qed.

Lemma utf8_decode_ascii_bytes (d : bytes) :
  forallb is_ascii d = true -> utf8_decode d = Some (map byte_val d).
Proof.
  induction d as [|b d IH]; [reflexivity|].
  simpl. unfold is_ascii at 1. intros H. apply andb_prop in H as [Hb Hd].
  rewrite Hb, (IH Hd). reflexivity.
Qed.

Lemma utf8_decode_concat (ds : list bytes) :
  forallb decodes ds = true ->
  utf8_decode (concat ds) = Some (concat (decoded_chunks ds)).
Proof.
  induction ds as [|d ds IH]; simpl; [reflexivity|].
  unfold decodes at 1. destruct (utf8_decode d) as [t|] eqn:Hd; [|discriminate].
  simpl. intros H. apply utf8_decode_app; [exact Hd|exact (IH H)].
Qed.

Lemma ascii_chunks (ds : list bytes) :
  forallb is_ascii (concat ds) = true ->
  forallb decodes ds = true
  /\ concat (decoded_chunks ds) = map byte_val (concat ds).
Proof.
  induction ds as [|d ds IH]; intros H; [split; reflexivity|].
  simpl in H. rewrite forallb_app in H. apply andb_prop in H as [Hd Hds].
  destruct (IH Hds) as [IH1 IH2]. simpl. unfold decodes.
  rewrite (utf8_decode_ascii_bytes d Hd). split; [exact IH1|].
  simpl. rewrite IH2, map_app. reflexivity.
Qed.

(** ** The bounded buffer *)

Lemma deque_append_maxlen (d : deque.t) (c : Z) :
  deque.maxlen (deque.append d c) = deque.maxlen d.
Proof. reflexivity. Qed.

Lemma deque_extend_maxlen (s : text) (d : deque.t) :
  deque.maxlen (deque.extend d s) = deque.maxlen d.
Proof.
  revert d. induction s as [|c s IH]; intros d; [reflexivity|].
  unfold deque.extend in *. simpl. rewrite IH. reflexivity.
Qed.

Lemma last_chars_all (n : Z) (l : text) :
  Z.of_nat (length l) <= n -> last_chars n l = l.
Proof.
  intros H. unfold last_chars.
  replace (length l - Z.to_nat n)%nat with 0%nat by lia. reflexivity.
Qed.

Lemma last_chars_length (n : Z) (l : text) :
  0 <= n -> Z.of_nat (length (last_chars n l)) = Z.min n (Z.of_nat (length l)).
Proof. intros H. unfold last_chars. rewrite length_drop. lia. Qed.

Lemma last_chars_min (n : Z) (l : text) :
  last_chars (Z.min n (Z.of_nat (length l))) l = last_chars n l.
Proof. unfold last_chars. f_equal. lia. Qed.

(** One append keeps the last [maxlen] items of what was appended so far. *)
Lemma deque_append_items (d : deque.t) (c : Z) :
  0 <= deque.maxlen d -> Z.of_nat (length (deque.items d)) <= deque.maxlen d ->
  deque.items (deque.append d c)
  = last_chars (deque.maxlen d) (deque.items d ++ [c]).
Proof.
  intros Hm Hl. unfold deque.append. simpl.
  destruct (Z.ltb_spec (deque.maxlen d) (Z.of_nat (length (deque.items d ++ [c]))))
    as [Hlt|Hge].
  - rewrite length_app in Hlt. simpl in Hlt. unfold last_chars.
    rewrite length_app. simpl.
    replace (length (deque.items d) + 1 - Z.to_nat (deque.maxlen d))%nat
      with 1%nat by lia.
    destruct (deque.items d); reflexivity.
  - rewrite last_chars_all; [reflexivity|lia].
Qed.

Lemma last_chars_app_last (n : Z) (l s : text) :
  last_chars n (last_chars n l ++ s) = last_chars n (l ++ s).
Proof.
  unfold last_chars.
  rewrite <- (drop_app_le l s (length l - Z.to_nat n)) by lia.
  rewrite drop_drop. f_equal. rewrite length_drop, !length_app. lia.
Qed.

(** [extend] keeps the last [maxlen] items of the old content followed by
    the new text. *)
Lemma deque_extend_items (s : text) (d : deque.t) :
  0 <= deque.maxlen d -> Z.of_nat (length (deque.items d)) <= deque.maxlen d ->
  deque.items (deque.extend d s)
  = last_chars (deque.maxlen d) (deque.items d ++ s).
Proof.
  revert d. induction s as [|c s IH]; intros d Hm Hl.
  - simpl. rewrite app_nil_r, last_chars_all; [reflexivity|lia].
  - change (deque.extend d (c :: s)) with (deque.extend (deque.append d c) s).
    rewrite IH.
    + rewrite deque_append_maxlen, deque_append_items by assumption.
      rewrite last_chars_app_last, <- app_assoc. reflexivity.
    + rewrite deque_append_maxlen. exact Hm.
    + rewrite deque_append_maxlen, deque_append_items by assumption.
      rewrite last_chars_length by assumption. lia.
Qed.

Lemma deque_extend_app (d : deque.t) (s t : text) :
  deque.extend (deque.extend d s) t = deque.extend d (s ++ t).
Proof. unfold deque.extend. rewrite fold_left_app. reflexivity. Qed.

(** ** The read loop *)

Lemma relayed_nil (c : console) (w : World) : relayed c [] w = w.
Proof. destruct c, w; unfold relayed; simpl; rewrite app_nil_r; reflexivity. Qed.

Lemma relayed_cons (c : console) (t : text) (ts : list text) (w : World) :
  relayed c ts (snd (write c t w)) = relayed c (t :: ts) w.
Proof.
  destruct c, w; unfold relayed; simpl; rewrite <- app_assoc; reflexivity.
Qed.

Arguments utf8_decode : simpl never.

(** The loop in closed form: it decodes, relays and appends the chunks read
    until the pipe is closed, and stops at the first chunk that does not
    decode. *)
Lemma read_loop_spec (redir : console) (cap_fd : list (option bytes)) :
  forall (buf : deque.t) (w : World),
  read_loop redir cap_fd buf w
  = (if forallb decodes (chunks_read cap_fd)
     then Return (deque.extend buf (concat (decoded_chunks (chunks_read cap_fd))))
     else Raise UnicodeDecodeError,
     relayed redir (decoded_chunks (chunks_read cap_fd)) w).
Proof.
  induction cap_fd as [|dat rest IH]; intros buf w.
  - simpl. rewrite relayed_nil. reflexivity.
  - destruct dat as [[|b bs]|].
    + simpl. rewrite relayed_nil. reflexivity.
    + cbn [read_loop chunks_read decoded_chunks forallb].
      unfold decodes at 1, mbind, M_bind, or_raise, call.
      destruct (utf8_decode (b :: bs)) as [t|]; cbn [or_else].
      * change (write redir t w) with (Return tt, snd (write redir t w)).
        cbn iota beta. rewrite IH, relayed_cons, deque_extend_app. reflexivity.
      * rewrite relayed_nil. reflexivity.
    + simpl. apply IH.
Qed.

(** C1. Whatever chunks the loop reads from the captured pipe, when it ends
    the buffer holds at most 20,000 characters: the last
    [min 20000 total] characters of the decoded stream, where the stream is
    the decoding of all the bytes read and [total] its length.  What is
    missing from the buffer is the oldest part of the stream. *)
Theorem buffer_is_bounded_tail (redir : console) (cap_fd : list (option bytes))
  (w w' : World) (buf : deque.t) :
  read_loop redir cap_fd (deque.new 20000) w = (Return buf, w') ->
  exists stream : text,
    utf8_decode (concat (chunks_read cap_fd)) = Some stream
    /\ Z.of_nat (length (deque.items buf)) <= 20000
    /\ deque.items buf
       = last_chars (Z.min 20000 (Z.of_nat (length stream))) stream
    /\ exists evicted : text,
         stream = evicted ++ deque.items buf
         /\ Z.of_nat (length evicted)
            = Z.of_nat (length stream) - Z.min 20000 (Z.of_nat (length stream)).
Proof.
  rewrite read_loop_spec. intros H.
  destruct (forallb decodes (chunks_read cap_fd)) eqn:Hd; [|discriminate].
  injection H as <- _.
  set (stream := concat (decoded_chunks (chunks_read cap_fd))).
  exists stream.
  split; [apply utf8_decode_concat; exact Hd|].
  rewrite deque_extend_items by (simpl; lia). simpl. fold stream.
  split; [rewrite last_chars_length; lia|].
  split; [rewrite last_chars_min; reflexivity|].
  exists (take (length stream - Z.to_nat 20000) stream).
  split; [unfold last_chars; rewrite take_drop; reflexivity|].
  rewrite length_take. lia.
Qed.

Lemma buffer_is_bounded_tail_witness :
  let cap_fd := [Some (literal_bytes "ab"); None; Some [xc3; xa9; xe2; x82; xac];
                 Some []; Some (literal_bytes "never read")] in
  let w := sample_world (sample_child [] [] 0) in
  exists stream : text,
    utf8_decode (concat (chunks_read cap_fd)) = Some stream
    /\ Z.of_nat (length [97; 98; 0xE9; 0x20AC]) <= 20000
    /\ [97; 98; 0xE9; 0x20AC]
       = last_chars (Z.min 20000 (Z.of_nat (length stream))) stream
    /\ exists evicted : text,
         stream = evicted ++ [97; 98; 0xE9; 0x20AC]
         /\ Z.of_nat (length evicted)
            = Z.of_nat (length stream) - Z.min 20000 (Z.of_nat (length stream)).
Proof.
  intros cap_fd w.
  apply (buffer_is_bounded_tail sys_stderr cap_fd w
           (snd (read_loop sys_stderr cap_fd (deque.new 20000) w))
           (deque.make 20000 [97; 98; 0xE9; 0x20AC])).
  reflexivity.
Defined.

(** ** Matching and scanning *)

Lemma match_here_plus_cons (a : re.atom) (p : list re.node) (c : Z) (s : text)
  (k : re.capture) :
  re.match_here (re.Plus a :: p) (c :: s) k
  = if re.atom_matches a c then
      match re.match_here (re.Plus a :: p) s (re.cap_push c k) with
      | Some r => Some r
      | None => re.match_here p s (re.cap_push c k)
      end
    else None.
Proof. reflexivity. Qed.

(** What is left after a match is a suffix of the text matched. *)
Lemma match_here_suffix (p : list re.node) :
  forall (s : text) (k : re.capture) (r : re.capture * text),
  re.match_here p s k = Some r -> exists m : text, s = m ++ snd r.
Proof.
  induction p as [|n p IH]; intros s k r H.
  - simpl in H. injection H as <-. exists []. reflexivity.
  - destruct n as [a|a| |].
    + destruct s as [|c s]; simpl in H; [discriminate|].
      destruct (re.atom_matches a c); [|discriminate].
      destruct (IH _ _ _ H) as [m ->]. exists (c :: m). reflexivity.
    + revert k H. induction s as [|c s IHs]; intros k H; [discriminate|].
      rewrite match_here_plus_cons in H.
      destruct (re.atom_matches a c); [|discriminate].
      destruct (re.match_here (re.Plus a :: p) s (re.cap_push c k)) as [r'|] eqn:E.
      * injection H as <-. destruct (IHs _ E) as [m Hm].
        exists (c :: m). simpl. f_equal. exact Hm.
      * destruct (IH _ _ _ H) as [m Hm]. exists (c :: m). simpl. f_equal. exact Hm.
    + simpl in H. exact (IH _ _ _ H).
    + simpl in H. exact (IH _ _ _ H).
Qed.

Lemma findall_from_skip (p : list re.node) (pre s : text) :
  re.findall_from p (pre ++ s) (length pre) = re.findall_from p s 0.
Proof. induction pre as [|c pre IH]; [reflexivity|exact IH]. Qed.

Lemma findall_from_no_match (p : list re.node) (pre s : text) :
  (forall i : nat, (i < length pre)%nat ->
     re.match_here p (drop i (pre ++ s)) re.NotYet = None) ->
  re.findall_from p (pre ++ s) 0 = re.findall_from p s 0.
Proof.
  induction pre as [|c pre IH]; intros H; [reflexivity|].
  pose proof (H 0%nat ltac:(simpl; lia)) as H0. simpl in H0.
  simpl. rewrite H0. apply IH.
  intros i Hi. apply (H (S i)). simpl. lia.
Qed.

Lemma findall_nil (p : list re.node) (s : text) :
  no_occurrence p s -> re.findall p s = [].
Proof.
  unfold re.findall, no_occurrence. intros H.
  rewrite <- (app_nil_r s). rewrite findall_from_no_match.
  - pose proof (H (length s)) as He. rewrite drop_all in He.
    simpl. rewrite He. reflexivity.
  - intros i _. rewrite app_nil_r. apply H.
Qed.

(** [findall] reports the occurrences, in the order of the scan. *)
Lemma findall_occurrences (p : list re.node) (s : text) (ms : list text) :
  occurrences p s ms -> re.findall p s = ms.
Proof.
  induction 1 as [s H|pre s r ms Hpre Hm Hlen _ IH].
  - apply findall_nil. exact H.
  - unfold re.findall in *. rewrite findall_from_no_match by exact Hpre.
    destruct (match_here_suffix _ _ _ _ Hm) as [m Hs].
    destruct s as [|c s]; [simpl in Hlen; lia|].
    cbn [re.findall_from]. rewrite Hm. f_equal.
    destruct m as [|c' m].
    + simpl in Hs. rewrite <- Hs in Hlen. lia.
    + simpl in Hs. injection Hs as <- Hs. rewrite Hs at 1.
      replace (length (c :: s) - length (snd r) - 1)%nat with (length m).
      * rewrite findall_from_skip. exact IH.
      * rewrite Hs. simpl. rewrite length_app. lia.
Qed.

(** ** Paths *)

Lemma join2_relative (path b : text) :
  os_path.startswith_sep b = false -> path <> [] ->
  os_path.endswith_sep path = false ->
  os_path.join2 path b = path ++ [SEP] ++ b.
Proof.
  intros Hb Hne Hend. unfold os_path.join2. rewrite Hb, Hend.
  destruct path; [contradiction|reflexivity].
Qed.

Lemma endswith_sep_snoc (p : text) (c : Z) :
  c <> SEP -> os_path.endswith_sep (p ++ [c]) = false.
Proof.
  intros Hc. unfold os_path.endswith_sep. rewrite last_snoc.
  apply Z.eqb_neq. exact Hc.
Qed.

(** ** The runner *)

Lemma collect_wheels_spec (ms : list text) :
  forall (acc : list text) (w : World),
  collect_wheels ms acc w
  = (Return (acc ++ ms), set_log (log w ++ found_log ms) w).
Proof.
  induction ms as [|m ms IH]; intros acc w.
  - simpl. rewrite !app_nil_r. destruct w; reflexivity.
  - cbn [collect_wheels]. unfold mbind, M_bind. cbn [LOG].
    rewrite IH. f_equal.
    + rewrite <- app_assoc. reflexivity.
    + destruct w; unfold set_log; simpl. rewrite <- app_assoc. reflexivity.
Qed.

(** After the launch, the runner behaves as [scan_outcome] says. *)
Lemma scan_after_launch (p : process) (redir : console)
  (reads : list (option bytes)) (pattern : list re.node) (w : World) :
  (cap_fd ← or_raise TypeError (Some reads);
   buf ← read_loop redir cap_fd (deque.new 20000);
   communicate p;;
   if negb (returncode (p_child p) =? 0) then
     raise (Exception (Fmt "Child process exited with nonzero result: rc=%d"
                         [VInt (returncode (p_child p))]))
   else
     let text := deque.items buf in
     let matches := re.findall pattern text in
     match matches with
     | [] =>
       LOG ERROR (Fmt "No wheel name found in output: %r" [VStr text]);;
       raise (Exception (Plain "No wheel name found in output"))
     | _ => collect_wheels matches []
     end) w
  = scan_outcome redir reads (p_child p) pattern w.
Proof.
  unfold scan_outcome, mbind, M_bind, or_raise, call. cbn [or_else].
  rewrite read_loop_spec.
  destruct (forallb decodes (chunks_read reads)); [|reflexivity].
  cbn [communicate]. rewrite deque_extend_items by (simpl; lia).
  cbn [deque.new deque.items deque.maxlen app].
  destruct (returncode (p_child p) =? 0); cbn [negb]; [|reflexivity].
  destruct (re.findall pattern _) as [|m ms] eqn:Hf.
  - reflexivity.
  - rewrite collect_wheels_spec. reflexivity.
Qed.

Lemma Popen_spawned (cmd : list text) (env : option dict_ref)
  (cwd : option text) (stdout stderr : stdio) (w : World) (c : child) :
  spawn (host w) (length (launched w)) cmd
    (child_env env w) cwd = Some c ->
  Popen cmd env cwd stdout stderr w
  = (Return {| p_child := c;
               p_stdout := piped stdout (child_stdout c);
               p_stderr := piped stderr (child_stderr c) |},
     launch_recorded cmd env cwd stdout stderr w).
Proof. intros Hs. unfold Popen. rewrite Hs. reflexivity. Qed.

Lemma Popen_refused (cmd : list text) (env : option dict_ref)
  (cwd : option text) (stdout stderr : stdio) (w : World) :
  spawn (host w) (length (launched w)) cmd
    (child_env env w) cwd = None ->
  Popen cmd env cwd stdout stderr w
  = (Raise (OSError (refused (host w) (length (launched w)) cmd
                       (child_env env w) cwd)), w).
Proof. intros Hs. unfold Popen. rewrite Hs. reflexivity. Qed.


Lemma scan_outcome_launched (redir : console) (reads : list (option bytes))
  (c : child) (pattern : list re.node) (w : World) :
  launched (snd (scan_outcome redir reads c pattern w)) = launched w.
Proof.
  unfold scan_outcome. destruct (forallb decodes _).
  - destruct (returncode c =? 0); [destruct (re.findall pattern _)|];
      destruct redir; reflexivity.
  - destruct redir; reflexivity.
Qed.

Lemma scan_outcome_out (redir : console) (reads : list (option bytes))
  (c : child) (pattern : list re.node) (w : World) :
  out (snd (scan_outcome redir reads c pattern w))
  = out (relayed redir (decoded_chunks (chunks_read reads)) w).
Proof.
  unfold scan_outcome. destruct (forallb decodes _).
  - destruct (returncode c =? 0); [destruct (re.findall pattern _)|];
      destruct redir; reflexivity.
  - destruct redir; reflexivity.
Qed.

Lemma scan_outcome_err (redir : console) (reads : list (option bytes))
  (c : child) (pattern : list re.node) (w : World) :
  err (snd (scan_outcome redir reads c pattern w))
  = err (relayed redir (decoded_chunks (chunks_read reads)) w).
Proof.
  unfold scan_outcome. destruct (forallb decodes _).
  - destruct (returncode c =? 0); [destruct (re.findall pattern _)|];
      destruct redir; reflexivity.
  - destruct redir; reflexivity.
Qed.

Lemma scan_outcome_environ (redir : console) (reads : list (option bytes))
  (c : child) (pattern : list re.node) (w : World) :
  environ (snd (scan_outcome redir reads c pattern w)) = environ w.
Proof.
  unfold scan_outcome. destruct (forallb decodes _).
  - destruct (returncode c =? 0); [destruct (re.findall pattern _)|];
      destruct redir; reflexivity.
  - destruct redir; reflexivity.
Qed.

Lemma scan_outcome_dicts (redir : console) (reads : list (option bytes))
  (c : child) (pattern : list re.node) (w : World) :
  dicts (snd (scan_outcome redir reads c pattern w)) = dicts w.
Proof.
  unfold scan_outcome. destruct (forallb decodes _).
  - destruct (returncode c =? 0); [destruct (re.findall pattern _)|];
      destruct redir; reflexivity.
  - destruct redir; reflexivity.
Qed.

Lemma scan_outcome_Return (redir : console) (reads : list (option bytes))
  (c : child) (pattern : list re.node) (w : World) (wheels : list text) :
  fst (scan_outcome redir reads c pattern w) = Return wheels ->
  wheels = re.findall pattern
             (last_chars 20000 (concat (decoded_chunks (chunks_read reads)))).
Proof.
  unfold scan_outcome. destruct (forallb decodes _); [|discriminate].
  destruct (returncode c =? 0); [|discriminate].
  destruct (re.findall pattern _); [discriminate|].
  simpl. intros H. injection H as <-. reflexivity.
Qed.

(** A child that writes one line of plain ASCII and exits with status 0:
    the runner returns what [findall] reports on that line. *)
Lemma scan_ascii_line (redir : console) (reads : list (option bytes))
  (c : child) (pattern : list re.node) (w : World) (line : bytes)
  (m : text) (ms : list text) :
  concat (chunks_read reads) = line ->
  forallb is_ascii line = true ->
  Z.of_nat (length line) <= 20000 ->
  returncode c = 0 ->
  re.findall pattern (map byte_val line) = m :: ms ->
  fst (scan_outcome redir reads c pattern w) = Return (m :: ms).
Proof.
  intros Hline Hascii Hlen Hrc Hfind. unfold scan_outcome.
  rewrite <- Hline in Hascii. destruct (ascii_chunks _ Hascii) as [H1 H2].
  rewrite H1, Hrc, H2, Hline. cbn [Z.eqb].
  rewrite last_chars_all by (rewrite length_map; exact Hlen).
  rewrite Hfind. reflexivity.
Qed.

Create Rewrite HintDb frame.

#[local] Hint Rewrite scan_outcome_launched scan_outcome_out scan_outcome_err
  scan_outcome_environ scan_outcome_dicts : frame.

Section Runner.

Variables (cmd : list text) (pattern : list re.node).
Variables (env : option dict_ref) (cwd capture : option text).
Variable w : World.

Lemma run_scan_spec (c : child) :
  launches w cmd env cwd c ->
  _run_scan_for_output cmd pattern env cwd capture w
  = if decide (capture = Some (str "stderr"))
    then scan_outcome sys_stderr (child_stderr c) c pattern
           (launch_recorded cmd env cwd inherited PIPE w)
    else scan_outcome sys_stdout (child_stdout c) c pattern
           (launch_recorded cmd env cwd PIPE inherited w).
Proof.
  intros Hs. unfold _run_scan_for_output.
  destruct (decide (capture = Some (str "stderr"))).
  - erewrite bind_Return;
      [|erewrite bind_Return; [|apply Popen_spawned; exact Hs]; reflexivity].
    cbn [p_stderr piped]. apply scan_after_launch.
  - erewrite bind_Return;
      [|erewrite bind_Return; [|apply Popen_spawned; exact Hs]; reflexivity].
    cbn [p_stdout piped]. apply scan_after_launch.
Qed.

(** When the program cannot be started, nothing else happens. *)
Lemma run_scan_not_started :
  spawn (host w) (length (launched w)) cmd (child_env env w) cwd = None ->
  _run_scan_for_output cmd pattern env cwd capture w
  = (Raise (OSError (refused (host w) (length (launched w)) cmd
                       (child_env env w) cwd)), w).
Proof.
  intros Hs. unfold _run_scan_for_output.
  destruct (decide (capture = Some (str "stderr")));
    (erewrite bind_Raise; [reflexivity|]);
    (erewrite bind_Raise; [reflexivity|]); apply Popen_refused; exact Hs.
Qed.

Lemma run_scan_launched (c : child) :
  launches w cmd env cwd c ->
  _run_scan_for_output cmd pattern env cwd capture w
  = scan_outcome (if decide (capture = Some (str "stderr"))
                  then sys_stderr else sys_stdout)
      (captured_pipe capture c) c pattern
      (launch_recorded cmd env cwd
         (if decide (capture = Some (str "stderr")) then inherited else PIPE)
         (if decide (capture = Some (str "stderr")) then PIPE else inherited) w).
Proof.
  intros Hl. rewrite (run_scan_spec c Hl). unfold captured_pipe.
  destruct (decide (capture = Some (str "stderr"))); reflexivity.
Qed.

(** The runner leaves every [dict] as it was, and launches at most one
    process, with the environment it was given. *)
Lemma run_scan_frame :
  let w' := snd (_run_scan_for_output cmd pattern env cwd capture w) in
  environ w' = environ w
  /\ dicts w' = dicts w
  /\ (launched w' = launched w
      \/ exists l : launch,
           launched w' = launched w ++ [l]
           /\ l_env l = env /\ l_vars l = child_env env w).
Proof.
  intros w'. subst w'.
  destruct (spawn (host w) (length (launched w)) cmd (child_env env w) cwd)
    as [c|] eqn:Hs.
  - rewrite (run_scan_spec c Hs).
    destruct (decide (capture = Some (str "stderr")));
      autorewrite with frame;
      (split; [reflexivity|]); (split; [reflexivity|]);
      right; eexists; (split; [reflexivity|]); split; reflexivity.
  - rewrite (run_scan_not_started Hs). auto.
Qed.





End Runner.







(** ** The environment overlay *)

Lemma setitem_obj (n : nat) (k v : text) (d : dict) (w : World) :
  dicts w !! n = Some d ->
  setitem (dict_obj n) k v w
  = (Return tt, set_dicts (<[n := <[k := v]> d]> (dicts w)) w).
Proof. intros H. unfold setitem, deref. rewrite H. reflexivity. Qed.

Lemma getitem_obj (n : nat) (k : text) (d : dict) (w : World) :
  dicts w !! n = Some d ->
  getitem (dict_obj n) k w
  = (match d !! k with Some v => Return v | None => Raise (KeyError k) end, w).
Proof.
  intros H. unfold getitem, deref. rewrite H. simpl.
  destruct (d !! k); reflexivity.
Qed.

Lemma set_dicts_twice (h1 h2 : gmap nat dict) (w : World) :
  set_dicts h2 (set_dicts h1 w) = set_dicts h2 w.
Proof. reflexivity. Qed.

Lemma dicts_set_dicts (h : gmap nat dict) (w : World) :
  dicts (set_dicts h w) = h.
Proof. reflexivity. Qed.

Ltac tidy_dicts :=
  rewrite ?dicts_set_dicts, ?set_dicts_twice, ?insert_insert_eq.

(** The lines of a driver from [env = dict(os.environ)] to [LOG.info], in
    closed form. *)
Lemma overlay_spec {A : Type} (py_bin : text) (m : message)
  (k : dict_ref -> M A) (w : World) :
  (env ← dict_copy os_environ;
   setitem env (str "JAX_RELEASE") (str "1");;
   setitem env (str "JAXLIB_RELEASE") (str "1");;
   prepend_PATH env py_bin;;
   LOG INFO m;;
   k env) w
  = match environ w !! str "PATH" with
    | Some old =>
      k (dict_obj (fresh (dom (dicts w)))) (overlay_built py_bin old m w)
    | None => (Raise (KeyError (str "PATH")), overlay_failed w)
    end.
Proof.
  set (n := fresh (dom (dicts w))).
  erewrite bind_Return; [|reflexivity]. fold n. cbn [deref].
  erewrite bind_Return;
    [|erewrite setitem_obj; [reflexivity|]; simpl; apply lookup_insert_eq].
  tidy_dicts.
  erewrite bind_Return;
    [|erewrite setitem_obj; [reflexivity|]; simpl; apply lookup_insert_eq].
  tidy_dicts.
  unfold prepend_PATH.
  assert (Hget : getitem (dict_obj n) (str "PATH")
            (set_dicts (<[n := <[str "JAXLIB_RELEASE" := str "1"]>
                                 (<[str "JAX_RELEASE" := str "1"]> (environ w))]>
                          (dicts w)) w)
          = (match environ w !! str "PATH" with
             | Some v => Return v
             | None => Raise (KeyError (str "PATH"))
             end,
             set_dicts (<[n := <[str "JAXLIB_RELEASE" := str "1"]>
                                 (<[str "JAX_RELEASE" := str "1"]> (environ w))]>
                          (dicts w)) w)).
  { erewrite getitem_obj; [|simpl; apply lookup_insert_eq].
    rewrite !lookup_insert_ne by discriminate. reflexivity. }
  destruct (environ w !! str "PATH") as [old|].
  - erewrite bind_Return;
      [|erewrite bind_Return; [|exact Hget];
        erewrite setitem_obj; [reflexivity|]; simpl; apply lookup_insert_eq].
    tidy_dicts.
    erewrite bind_Return; [|reflexivity]. reflexivity.
  - erewrite bind_Raise; [reflexivity|].
    erewrite bind_Raise; [reflexivity|exact Hget].
Qed.

Lemma fresh_dict_unused (w : World) : dicts w !! fresh (dom (dicts w)) = None.
Proof. apply not_elem_of_dom. apply is_fresh. Qed.

Lemma frame_unchanged (python_version : text) (w : World) :
  overlay_frame python_version w w.
Proof. split; [reflexivity|]. split; [tauto|left; reflexivity]. Qed.

Lemma frame_overlay_failed (python_version : text) (w : World) :
  overlay_frame python_version w (overlay_failed w).
Proof.
  split; [reflexivity|]. split; [|left; reflexivity].
  intros n d Hn. cbn [overlay_failed dicts set_dicts].
  rewrite lookup_insert_ne; [exact Hn|].
  intros <-. rewrite fresh_dict_unused in Hn. discriminate.
Qed.

(** One run of the runner on the overlay satisfies [overlay_frame]. *)
Lemma frame_after_overlay (python_version : text) (w : World)
  (cmd : list text) (pattern : list re.node) (cwd : option text)
  (capture : option text) (m : message) (cpy old : text) :
  to_cpy_ver python_version = Return cpy ->
  environ w !! str "PATH" = Some old ->
  overlay_frame python_version w
    (snd (_run_scan_for_output cmd pattern
            (Some (dict_obj (fresh (dom (dicts w))))) cwd capture
            (overlay_built (py_bin_of cpy) old m w))).
Proof.
  intros Hcpy Hpath.
  destruct (run_scan_frame cmd pattern
              (Some (dict_obj (fresh (dom (dicts w))))) cwd capture
              (overlay_built (py_bin_of cpy) old m w)) as (He & Hd & Hl).
  split; [exact He|]. split.
  - intros n d Hn. rewrite Hd. cbn [overlay_built dicts set_dicts set_log].
    rewrite lookup_insert_ne; [exact Hn|].
    intros <-. rewrite fresh_dict_unused in Hn. discriminate.
  - destruct Hl as [Hl|(l & Hl & Hle & Hlv)]; [left; exact Hl|].
    right. exists l, (fresh (dom (dicts w))), cpy, old.
    split; [exact Hl|]. split; [exact Hcpy|]. split; [exact Hpath|].
    split; [exact Hle|]. split; [apply fresh_dict_unused|].
    rewrite Hlv. cbn [child_env deref overlay_built dicts set_dicts set_log].
    rewrite lookup_insert_eq. reflexivity.
Qed.

(** ** The drivers *)

Lemma next_child_launches (w : World) (c : child) (py_bin old : text)
  (m : message) (cmd : list text) (env : option dict_ref) (cwd : option text) :
  next_child w c -> launches (overlay_built py_bin old m w) cmd env cwd c.
Proof. intros H. apply H. Qed.

(** C6. When the child of the native build writes exactly the line
    [Output wheel: /tmp/out/pkg-1.0-cp310.whl] to its error stream, in
    whatever chunks it is read, and exits with status 0,
    [build_jaxlib_wheel] returns the list of the one path
    [/tmp/out/pkg-1.0-cp310.whl]. *)
Theorem jaxlib_wheel_end_to_end (jax_path rocm_path python_version : text)
  (xla_path : option text) (w : World) (c : child) (cpy old : text) :
  to_cpy_ver python_version = Return cpy ->
  environ w !! str "PATH" = Some old ->
  next_child w c ->
  concat (chunks_read (child_stderr c)) = wheel_line ->
  returncode c = 0 ->
  fst (build_jaxlib_wheel jax_path rocm_path python_version xla_path w)
  = Return [str "/tmp/out/pkg-1.0-cp310.whl"].
Proof.
  intros Hcpy Hpath Hnext Hline Hrc. unfold build_jaxlib_wheel. cbv zeta.
  erewrite bind_Return; [|apply call_Return; exact Hcpy].
  rewrite overlay_spec, Hpath.
  erewrite bind_Return; [|reflexivity].
  rewrite (run_scan_launched _ _ _ _ _ _ c (next_child_launches _ _ _ _ _ _ _ _ Hnext)).
  apply (scan_ascii_line _ _ _ _ _ wheel_line);
    [exact Hline|reflexivity|vm_compute; discriminate|exact Hrc|reflexivity].
Qed.

Lemma jaxlib_wheel_end_to_end_witness :
  let c := sample_child [Some (literal_bytes "progress")]
             [None; Some (literal_bytes "Output wheel: /tmp/out/");
              Some (literal_bytes "pkg-1.0-cp310.whl" ++ [x0a])] 0 in
  fst (build_jaxlib_wheel (str "/src/jax") (str "/opt/rocm") (str "3.10") None
         (sample_world c))
  = Return [str "/tmp/out/pkg-1.0-cp310.whl"].
Proof.
  intros c.
  apply (jaxlib_wheel_end_to_end (str "/src/jax") (str "/opt/rocm") (str "3.10")
           None (sample_world c) c (str "cp310") (str "/usr/bin"));
    [reflexivity|reflexivity|intros cmd vars cwd; reflexivity
    |reflexivity|reflexivity].
Defined.

(** C2, as stated, fails: the line with parentheses around the wheel name
    is not matched by the pattern of [build_jax_wheel], whose parentheses
    delimit the group, and the driver raises instead of returning the
    path. *)
Lemma jax_wheel_parenthesised_line_not_matched :
  let c := sample_child [Some build_line_parenthesised] [] 0 in
  concat (chunks_read (child_stdout c)) = build_line_parenthesised
  /\ returncode c = 0
  /\ fst (build_jax_wheel (str "/src/jax") (str "3.10") (sample_world c))
     = Raise (Exception (Plain "No wheel name found in output"))
  /\ fst (build_jax_wheel (str "/src/jax") (str "3.10") (sample_world c))
     <> Return [str "/src/jax/dist/jax-1.0-py3-none-any.whl"].
Proof.
  intros c. split; [reflexivity|]. split; [reflexivity|].
  assert (H : fst (build_jax_wheel (str "/src/jax") (str "3.10") (sample_world c))
              = Raise (Exception (Plain "No wheel name found in output")))
    by (vm_compute; reflexivity).
  split; [exact H|]. rewrite H. discriminate.
Qed.

(** C2, amended. When the packaging child writes exactly the line
    [Successfully built jax-1.0 and jax-1.0-py3-none-any.whl] (no
    parentheses) to its standard output, in whatever chunks it is read, and
    exits with status 0, [build_jax_wheel] returns the list of the one path
    [os.path.join(jax_path, "dist", "jax-1.0-py3-none-any.whl")], which is
    [<jax_path>/dist/jax-1.0-py3-none-any.whl] when [jax_path] is not empty
    and does not end in a separator. *)
Theorem jax_wheel_end_to_end (jax_path python_version : text)
  (w : World) (c : child) (cpy old : text) :
  to_cpy_ver python_version = Return cpy ->
  environ w !! str "PATH" = Some old ->
  next_child w c ->
  concat (chunks_read (child_stdout c)) = build_line ->
  returncode c = 0 ->
  fst (build_jax_wheel jax_path python_version w)
  = Return [os_path.join jax_path [str "dist"; str "jax-1.0-py3-none-any.whl"]]
  /\ (jax_path <> [] -> os_path.endswith_sep jax_path = false ->
      os_path.join jax_path [str "dist"; str "jax-1.0-py3-none-any.whl"]
      = jax_path ++ str "/dist/jax-1.0-py3-none-any.whl").
Proof.
  intros Hcpy Hpath Hnext Hline Hrc. split.
  - unfold build_jax_wheel. cbv zeta.
    erewrite bind_Return; [|apply call_Return; exact Hcpy].
    rewrite overlay_spec, Hpath.
    erewrite bind_Return; [|reflexivity].
    unfold mbind at 1, M_bind at 1.
    rewrite (run_scan_launched _ _ _ _ _ _ c (next_child_launches _ _ _ _ _ _ _ _ Hnext)).
    match goal with
    | |- context [scan_outcome ?r ?rd ?c ?p ?w0] =>
      pose proof (scan_ascii_line r rd c p w0 build_line
                    (str "jax-1.0-py3-none-any.whl") []
                    Hline eq_refl ltac:(vm_compute; discriminate) Hrc eq_refl) as Hs;
      destruct (scan_outcome r rd c p w0) as [o w1]
    end.
    simpl in Hs. subst o. reflexivity.
  - intros Hne Hend. unfold os_path.join. cbn [fold_left].
    rewrite (join2_relative jax_path) by (reflexivity || assumption).
    rewrite join2_relative.
    + rewrite <- !app_assoc. reflexivity.
    + reflexivity.
    + destruct jax_path; discriminate.
    + change (str "dist") with ([100; 105; 115] ++ [116]).
      rewrite !app_assoc. apply endswith_sep_snoc. discriminate.
Qed.

Lemma jax_wheel_end_to_end_witness :
  let c := sample_child [Some (literal_bytes "Successfully built jax-1.0 and ");
                         None;
                         Some (literal_bytes "jax-1.0-py3-none-any.whl" ++ [x0a])]
             [Some (literal_bytes "warning")] 0 in
  fst (build_jax_wheel (str "/src/jax") (str "3.12") (sample_world c))
  = Return [str "/src/jax/dist/jax-1.0-py3-none-any.whl"].
Proof.
  intros c.
  pose proof (jax_wheel_end_to_end (str "/src/jax") (str "3.12")
                (sample_world c) c (str "cp312") (str "/usr/bin")
                eq_refl eq_refl (fun _ _ _ => eq_refl) eq_refl eq_refl) as [H1 H2].
  rewrite H1, H2; [reflexivity|discriminate|reflexivity].
Defined.

(** C8. Both drivers build the environment of their child in a [dict] of
    their own: after a call the mapping behind [os.environ] and every
    object that existed are as before, and the process launched, if any,
    received an object that did not exist before the call, holding the
    parent's variables with [JAX_RELEASE=1], [JAXLIB_RELEASE=1] and the
    interpreter directory in front of [PATH]. *)
Theorem environment_overlay_is_fresh (jax_path rocm_path python_version : text)
  (xla_path : option text) (w : World) :
  overlay_frame python_version w
    (snd (build_jaxlib_wheel jax_path rocm_path python_version xla_path w))
  /\ overlay_frame python_version w
       (snd (build_jax_wheel jax_path python_version w)).
Proof.
  split.
  - unfold build_jaxlib_wheel. cbv zeta.
    destruct (to_cpy_ver python_version) as [cpy|e] eqn:Hcpy.
    + erewrite bind_Return; [|apply call_Return; reflexivity].
      rewrite overlay_spec.
      destruct (environ w !! str "PATH") as [old|] eqn:Hpath.
      * erewrite bind_Return; [|reflexivity].
        apply frame_after_overlay; assumption.
      * apply frame_overlay_failed.
    + erewrite bind_Raise; [|apply call_Raise; reflexivity].
      apply frame_unchanged.
  - unfold build_jax_wheel. cbv zeta.
    destruct (to_cpy_ver python_version) as [cpy|e] eqn:Hcpy.
    + erewrite bind_Return; [|apply call_Return; reflexivity].
      rewrite overlay_spec.
      destruct (environ w !! str "PATH") as [old|] eqn:Hpath.
      * erewrite bind_Return; [|reflexivity].
        rewrite snd_bind_mret.
        apply frame_after_overlay; assumption.
      * apply frame_overlay_failed.
    + erewrite bind_Raise; [|apply call_Raise; reflexivity].
      apply frame_unchanged.
Qed.

Lemma environment_overlay_is_fresh_witness :
  let c := sample_child [Some build_line] [] 0 in
  let w' := snd (build_jax_wheel (str "/src/jax") (str "3.12") (sample_world c)) in
  environ w' = {[ str "PATH" := str "/usr/bin" ]}
  /\ (l_vars <$> launched w')
     = [ {[ str "PATH" := str "/opt/python/cp312-cp312/bin:/usr/bin";
            str "JAX_RELEASE" := str "1";
            str "JAXLIB_RELEASE" := str "1" ]} ].
Proof.
  intros c w'.
  destruct (proj2 (environment_overlay_is_fresh (str "/src/jax") (str "/opt/rocm")
                     (str "3.12") None (sample_world c)))
    as (He & _ & [Hl|(l & n & cpy & old & Hl & Hcpy & Hpath & _ & _ & Hv)]).
  - exfalso. apply (f_equal length) in Hl. vm_compute in Hl. discriminate.
  - split; [exact He|]. fold w' in Hl. rewrite Hl.
    injection Hcpy as <-. injection Hpath as <-.
    cbn [fmap list_fmap launched sample_world app]. rewrite Hv.
    vm_compute. reflexivity.
Defined.

(** ** The target list *)

Lemma target_and_version_differ (rocm_path : text) :
  os_path.join rocm_path [str "bin/target.lst"]
  <> os_path.join rocm_path [str ".info/version"].
Proof.
  unfold os_path.join, os_path.join2. cbn [fold_left].
  change (os_path.startswith_sep (str "bin/target.lst")) with false.
  change (os_path.startswith_sep (str ".info/version")) with false.
  cbn iota.
  destruct (os_path.is_empty rocm_path || os_path.endswith_sep rocm_path);
    intros H; repeat apply app_inv_head in H; discriminate.
Qed.

(** [update_rocm_targets] in closed form. *)
Lemma update_rocm_targets_spec (rocm_path targets : text) (w : World) :
  let target_fp := os_path.join rocm_path [str "bin/target.lst"] in
  let version_fp := os_path.join rocm_path [str ".info/version"] in
  let w1 := set_files (<[target_fp := targets ++ [NL]]> (files w)) w in
  update_rocm_targets rocm_path targets w
  = if can_open w target_fp then
      if can_open w version_fp then
        (Return tt,
         match files w !! version_fp with
         | Some _ => w1
         | None => set_files (<[version_fp := []]> (files w1)) w1
         end)
      else (Raise (OSError version_fp), w1)
    else (Raise (OSError target_fp), w).
Proof.
  intros target_fp version_fp w1. unfold update_rocm_targets. cbv zeta.
  fold target_fp version_fp.
  destruct (can_open w target_fp) eqn:Ht.
  - rewrite (bind_Return _ _ w (set_files (<[target_fp := []]> (files w)) w)
               target_fp)
      by (unfold open_w; rewrite Ht; reflexivity).
    rewrite (bind_Return _ _ _ w1 tt)
      by (unfold fd_write; cbn [files set_files];
          rewrite lookup_insert_eq, insert_insert_eq; reflexivity).
    unfold mbind, M_bind, open_a.
    change (can_open w1 version_fp) with (can_open w version_fp).
    destruct (can_open w version_fp); [|reflexivity].
    subst w1. cbn [files set_files].
    rewrite lookup_insert_ne by apply target_and_version_differ.
    destruct (files w !! version_fp); reflexivity.
  - rewrite (bind_Raise _ _ w w (OSError target_fp))
      by (unfold open_w; rewrite Ht; reflexivity).
    reflexivity.
Qed.

(** C7. A second call with the same arguments changes nothing: it has the
    outcome of the first and leaves the world of the first, so the target
    list is byte for byte the same.  When the call succeeds the target list
    holds the targets string and one newline, and the version marker
    exists, with the content it had if it existed before. *)
Theorem update_rocm_targets_idempotent (rocm_path targets : text) (w : World) :
  let target_fp := os_path.join rocm_path [str "bin/target.lst"] in
  let version_fp := os_path.join rocm_path [str ".info/version"] in
  let r1 := update_rocm_targets rocm_path targets w in
  let r2 := update_rocm_targets rocm_path targets (snd r1) in
  r2 = r1
  /\ (fst r1 = Return tt ->
      files (snd r1) !! target_fp = Some (targets ++ [NL])
      /\ files (snd r2) !! target_fp = Some (targets ++ [NL])
      /\ is_Some (files (snd r1) !! version_fp)
      /\ is_Some (files (snd r2) !! version_fp)
      /\ forall c : text, files w !! version_fp = Some c ->
           files (snd r1) !! version_fp = Some c
           /\ files (snd r2) !! version_fp = Some c).
Proof.
  intros target_fp version_fp r1 r2.
  pose proof (target_and_version_differ rocm_path) as Hne.
  fold target_fp version_fp in Hne.
  assert (H21 : r2 = r1).
  { subst r1 r2. rewrite (update_rocm_targets_spec rocm_path targets w).
    fold target_fp version_fp.
    destruct (can_open w target_fp) eqn:Ht.
    - destruct (can_open w version_fp) eqn:Hv.
      + destruct (files w !! version_fp) as [c|] eqn:Hc;
          cbn [snd]; rewrite update_rocm_targets_spec;
          fold target_fp version_fp;
          unfold can_open in *; cbn [host set_files files]; rewrite Ht, Hv.
        * rewrite lookup_insert_ne, Hc by exact Hne.
          rewrite insert_insert_eq. reflexivity.
        * rewrite lookup_insert_eq. f_equal.
          rewrite (insert_id (<[version_fp:=[]]> _) target_fp); [reflexivity|].
          rewrite lookup_insert_ne, lookup_insert_eq by congruence.
          reflexivity.
      + cbn [snd]. rewrite update_rocm_targets_spec.
        fold target_fp version_fp.
        unfold can_open in *; cbn [host set_files files]; rewrite Ht, Hv.
        rewrite insert_insert_eq. reflexivity.
    - cbn [snd]. rewrite update_rocm_targets_spec.
      fold target_fp version_fp. rewrite Ht. reflexivity. }
  split; [exact H21|]. rewrite H21. subst r1.
  rewrite (update_rocm_targets_spec rocm_path targets w).
  fold target_fp version_fp.
  destruct (can_open w target_fp); [|discriminate].
  destruct (can_open w version_fp); [|discriminate].
  intros _. destruct (files w !! version_fp) as [c|] eqn:Hc; cbn [snd files set_files].
  - rewrite lookup_insert_eq, lookup_insert_ne, Hc by exact Hne.
    repeat split; eauto.
  - rewrite lookup_insert_eq, lookup_insert_ne, lookup_insert_eq by congruence.
    repeat split; eauto; discriminate.
Qed.

Lemma update_rocm_targets_idempotent_witness :
  let r1 := update_rocm_targets (str "/opt/rocm") (str "gfx900 gfx906") rocm_world in
  let r2 := update_rocm_targets (str "/opt/rocm") (str "gfx900 gfx906") (snd r1) in
  fst r1 = Return tt
  /\ files (snd r1) !! str "/opt/rocm/bin/target.lst"
     = Some (str "gfx900 gfx906" ++ [NL])
  /\ files (snd r2) !! str "/opt/rocm/bin/target.lst"
     = Some (str "gfx900 gfx906" ++ [NL])
  /\ files (snd r1) !! str "/opt/rocm/.info/version" = Some (str "6.1.1-136")
  /\ files (snd r2) !! str "/opt/rocm/.info/version" = Some (str "6.1.1-136").
Proof.
  intros r1 r2.
  pose proof (proj2 (update_rocm_targets_idempotent (str "/opt/rocm")
                       (str "gfx900 gfx906") rocm_world) eq_refl)
    as (H1 & H2 & _ & _ & H5).
  destruct (H5 (str "6.1.1-136") eq_refl) as [H6 H7].
  split; [reflexivity|]. split; [exact H1|]. split; [exact H2|].
  split; [exact H6|exact H7].
Defined.

(** ** The entry point *)

(** C9. Without [--python-versions], [parse_args] yields the declared
    default, a list of one string; [main] then fails on its second line,
    before anything is printed, written to a file or launched.  With the
    source directory given, the failure is the [AttributeError] of calling
    [split] on a list, and the world is left as it was.  Without it,
    [argparse] has stopped the program before: the usage lines and its
    error message are on [sys.stderr], the exit status is 2, and nothing
    else has changed. *)
Theorem main_fails_on_default_python_versions (w : World) :
  cl_python_versions (sys_argv (host w)) = None ->
  (exists (e : exn) (w' : World),
     main w = (Raise e, w')
     /\ files w' = files w /\ launched w' = launched w
     /\ out w' = out w /\ log w' = log w
     /\ environ w' = environ w /\ dicts w' = dicts w)
  /\ (forall jp : text, cl_jax_path (sys_argv (host w)) = Some jp ->
      (exists ns : Namespace,
         parse_args w = (Return ns, w)
         /\ python_versions ns = VStrs [str "3.10.19,3.12"])
      /\ main w
         = (Raise (AttributeError
                     (Plain "'list' object has no attribute 'split'")),
            w))
  /\ (cl_jax_path (sys_argv (host w)) = None ->
      main w
      = (Raise (SystemExit 2),
         set_err (err w
                  ++ [Usage (prog (host w));
                      Written (prog (host w)
                               ++ str ": error: the following arguments are required: jax_path"
                               ++ [NL])]) w)).
Proof.
  intros Hpv.
  assert (Hjp : forall jp : text, cl_jax_path (sys_argv (host w)) = Some jp ->
     (exists ns : Namespace,
        parse_args w = (Return ns, w)
        /\ python_versions ns = VStrs [str "3.10.19,3.12"])
     /\ main w
        = (Raise (AttributeError (Plain "'list' object has no attribute 'split'")),
           w)).
  { intros jp Hjp.
    assert (Hargs : parse_args w
              = (Return {| rocm_version := default (str "6.1.1")
                             (cl_rocm_version (sys_argv (host w)));
                           python_versions := VStrs [str "3.10.19,3.12"];
                           xla_path := cl_xla_path (sys_argv (host w));
                           jax_path := jp |}, w)).
    { unfold parse_args. rewrite Hjp, Hpv. reflexivity. }
    split; [eexists; split; [exact Hargs|reflexivity]|].
    unfold main. erewrite bind_Return; [|exact Hargs].
    erewrite bind_Raise; reflexivity. }
  assert (Hnone : cl_jax_path (sys_argv (host w)) = None ->
      main w
      = (Raise (SystemExit 2),
         set_err (err w
                  ++ [Usage (prog (host w));
                      Written (prog (host w)
                               ++ str ": error: the following arguments are required: jax_path"
                               ++ [NL])]) w)).
  { intros E. unfold main.
    erewrite bind_Raise; [reflexivity|]. unfold parse_args. rewrite E.
    unfold write, emit, raise, mbind, M_bind. cbn [err set_err].
    rewrite <- app_assoc. destruct w; reflexivity. }
  split; [|split; [exact Hjp|exact Hnone]].
  destruct (cl_jax_path (sys_argv (host w))) as [jp|] eqn:E.
  - eexists _, w. split; [apply (Hjp jp eq_refl)|]. repeat split.
  - eexists _, _. split; [apply (Hnone eq_refl)|]. repeat split.
Qed.

Lemma main_fails_on_default_python_versions_witness :
  main rocm_world
  = (Raise (AttributeError (Plain "'list' object has no attribute 'split'")),
     rocm_world)
  /\ fst (main bare_world) = Raise (SystemExit 2).
Proof.
  split.
  - exact (proj2 (proj1 (proj2 (main_fails_on_default_python_versions
                                  rocm_world eq_refl))
                    (str "/src/jax") eq_refl)).
  - rewrite (proj2 (proj2 (main_fails_on_default_python_versions
                             bare_world eq_refl)) eq_refl).
    reflexivity.
Defined.

(** With the versions given on the command line and children that behave,
    [main] runs to its end: seven processes are launched (a build and two
    repair steps for each of the two versions, then the packaging), and the
    pure wheel is copied to the wheelhouse. *)
Example main_runs_to_completion :
  fst (main good_world) = Return tt
  /\ length (launched (snd (main good_world))) = 7%nat
  /\ files (snd (main good_world)) !! str "/wheelhouse/jax-1.0-py3-none-any.whl"
     = Some (str "PK")
  /\ files (snd (main good_world)) !! str "/opt/rocm/bin/target.lst"
     = Some (GPU_DEVICE_TARGETS ++ [NL]).
Proof. vm_compute. repeat split; reflexivity. Qed.

(** * Further properties *)

(** ** What the patterns match *)

Lemma cap_pushes_NotYet (l : text) : cap_pushes l re.NotYet = re.NotYet.
Proof. induction l as [|c l IH]; [reflexivity|exact IH]. Qed.

Lemma cap_pushes_Captured (l g : text) :
  cap_pushes l (re.Captured g) = re.Captured g.
Proof. induction l as [|c l IH]; [reflexivity|exact IH]. Qed.

Lemma cap_pushes_Capturing (l : text) :
  forall acc : text,
  cap_pushes l (re.Capturing acc) = re.Capturing (rev l ++ acc).
Proof.
  induction l as [|c l IH]; intros acc; [reflexivity|].
  unfold cap_pushes in *. simpl. rewrite IH, <- app_assoc. reflexivity.
Qed.

Lemma match_here_open (p : list re.node) (s : text) (k : re.capture) :
  re.match_here (re.Open :: p) s k = re.match_here p s (re.cap_open k).
Proof. reflexivity. Qed.

Lemma match_here_close (p : list re.node) (s : text) (k : re.capture) :
  re.match_here (re.Close :: p) s k = re.match_here p s (re.cap_close k).
Proof. reflexivity. Qed.

Lemma match_here_newline (s : text) (g : text) (r : re.capture * text) :
  re.match_here [re.One (re.Lit NL)] s (re.Captured g) = Some r <->
  exists rest : text, s = NL :: rest /\ r = (re.Captured g, rest).
Proof.
  destruct s as [|c rest]; simpl.
  - split; [discriminate|intros (? & ? & _); discriminate].
  - destruct (Z.eqb_spec c NL) as [->|Hne].
    + split; [intros [= <-]; eauto|intros (? & [= <-] & ->); reflexivity].
    + split; [discriminate|intros (? & [= ? _] & _); contradiction].
Qed.

(** A run of literals matches exactly itself. *)
Lemma lits_match (l : text) (p : list re.node) :
  forall (s : text) (k : re.capture) (r : re.capture * text),
  re.match_here (lits l ++ p) s k = Some r <->
  exists s' : text, s = l ++ s' /\ re.match_here p s' (cap_pushes l k) = Some r.
Proof.
  induction l as [|c l IH]; intros s k r.
  - simpl. split; [intros H; exists s; auto|intros (s' & -> & H); exact H].
  - simpl. destruct s as [|x s].
    + split; [discriminate|intros (s' & Hs & _); discriminate].
    + destruct (Z.eqb_spec x c) as [->|Hne].
      * rewrite IH. split; intros (s' & Hs & H); exists s'.
        -- subst s. auto.
        -- injection Hs as ->. auto.
      * split; [discriminate|].
        intros (s' & Hs & _). injection Hs as Hx _. contradiction.
Qed.

(** What [.+] takes is not empty and holds no newline. *)
Lemma plus_any_sound (p : list re.node) :
  forall (s : text) (k : re.capture) (r : re.capture * text),
  re.match_here (re.Plus re.Any :: p) s k = Some r ->
  exists g s' : text,
    g <> [] /\ no_newline g = true /\ s = g ++ s'
    /\ re.match_here p s' (cap_pushes g k) = Some r.
Proof.
  induction s as [|c s IH]; intros k r H; [discriminate|].
  rewrite match_here_plus_cons in H.
  destruct (re.atom_matches re.Any c) eqn:Hc; [|discriminate].
  destruct (re.match_here (re.Plus re.Any :: p) s (re.cap_push c k)) as [r'|] eqn:E.
  - injection H as <-. destruct (IH _ _ E) as (g & s' & _ & Hg & -> & Hm).
    exists (c :: g), s'. repeat split; [discriminate| |exact Hm].
    unfold no_newline in *. simpl. simpl in Hc. rewrite Hc. exact Hg.
  - exists [c], s. repeat split; [discriminate| |exact H].
    unfold no_newline. simpl. simpl in Hc. rewrite Hc. reflexivity.
Qed.

(** [.+] takes a whole run that stops at a newline or at the end, when the
    rest of the pattern matches from there. *)
Lemma plus_any_complete (p : list re.node) (s' : text) (r : re.capture * text) :
  (forall k : re.capture, re.match_here (re.Plus re.Any :: p) s' k = None) ->
  forall (g : text) (k : re.capture),
  g <> [] -> no_newline g = true ->
  re.match_here p s' (cap_pushes g k) = Some r ->
  re.match_here (re.Plus re.Any :: p) (g ++ s') k = Some r.
Proof.
  intros Hstop. induction g as [|c g IH]; intros k Hne Hg Hm; [contradiction|].
  unfold no_newline in Hg. simpl in Hg. apply andb_prop in Hg as [Hc Hg].
  rewrite <- app_comm_cons, match_here_plus_cons.
  cbn [re.atom_matches]. rewrite Hc.
  destruct g as [|c' g].
  - rewrite app_nil_l, Hstop. exact Hm.
  - rewrite (IH (re.cap_push c k)); [reflexivity|discriminate|exact Hg|exact Hm].
Qed.

Lemma wheel_pattern_nodes :
  wheel_pattern
  = lits (str "Output wheel: ")
    ++ [re.Open; re.Plus re.Any; re.Close; re.One (re.Lit NL)].
Proof. reflexivity. Qed.

Lemma build_pattern_nodes :
  build_pattern
  = lits (str "Successfully built jax-")
    ++ re.Plus re.Any
    :: lits (str " and ")
    ++ re.Open
    :: lits (str "jax-")
    ++ re.Plus re.Any
    :: lits (str ".whl")
    ++ [re.Close; re.One (re.Lit NL)].
Proof. reflexivity. Qed.

(** The pattern of the native build matches exactly a text that starts with
    [Output wheel: ], a non-empty run without newline, and a newline; it
    reports that run. *)
Lemma wheel_pattern_match (s : text) (r : re.capture * text) :
  re.match_here wheel_pattern s re.NotYet = Some r ->
  exists g rest : text,
    g <> [] /\ no_newline g = true
    /\ s = str "Output wheel: " ++ g ++ NL :: rest
    /\ r = (re.Captured g, rest).
Proof.
  rewrite wheel_pattern_nodes, lits_match. intros (s1 & -> & H).
  rewrite cap_pushes_NotYet, match_here_open in H. cbn [re.cap_open] in H.
  apply plus_any_sound in H as (g & s2 & Hne & Hg & -> & H).
  rewrite cap_pushes_Capturing, app_nil_r, match_here_close in H.
  cbn [re.cap_close] in H. rewrite rev_involutive in H.
  apply match_here_newline in H as (rest & -> & ->).
  exists g, rest. auto.
Qed.

(** The pattern of the packaging step reports a name that starts with
    [jax-] and ends with [.whl], without newline. *)
Lemma build_pattern_match (s : text) (r : re.capture * text) :
  re.match_here build_pattern s re.NotYet = Some r ->
  exists a b rest : text,
    b <> [] /\ no_newline b = true
    /\ s = str "Successfully built jax-" ++ a ++ str " and jax-" ++ b
           ++ str ".whl" ++ NL :: rest
    /\ r = (re.Captured (str "jax-" ++ b ++ str ".whl"), rest).
Proof.
  rewrite build_pattern_nodes, lits_match. intros (s1 & -> & H).
  rewrite cap_pushes_NotYet in H.
  apply plus_any_sound in H as (a & s2 & _ & _ & -> & H).
  rewrite cap_pushes_NotYet, lits_match in H. destruct H as (s3 & -> & H).
  rewrite cap_pushes_NotYet, match_here_open, lits_match in H.
  cbn [re.cap_open] in H. destruct H as (s4 & -> & H).
  apply plus_any_sound in H as (b & s5 & Hne & Hb & -> & H).
  rewrite lits_match in H. destruct H as (s6 & -> & H).
  rewrite match_here_close, !cap_pushes_Capturing, app_nil_r in H.
  cbn [re.cap_open re.cap_close] in H.
  apply match_here_newline in H as (rest & -> & ->).
  exists a, b, rest.
  split; [exact Hne|]. split; [exact Hb|]. split.
  - reflexivity.
  - f_equal. f_equal. rewrite !rev_app_distr, !rev_involutive.
    rewrite <- !app_assoc. reflexivity.
Qed.

(** Every string [findall] returns is what a match at some position
    reports. *)
Lemma findall_from_elem (p : list re.node) (m : text) :
  forall (s : text) (n : nat),
  m ∈ re.findall_from p s n ->
  exists (pre s' : text) (r : re.capture * text),
    s = pre ++ s' /\ re.match_here p s' re.NotYet = Some r
    /\ m = re.reported s' r.
Proof.
  induction s as [|c s IH]; intros n Hm.
  - destruct n as [|n]; simpl in Hm; [|inversion Hm].
    destruct (re.match_here p [] re.NotYet) as [r|] eqn:E; [|inversion Hm].
    apply list_elem_of_singleton in Hm. exists [], [], r. auto.
  - destruct n as [|n]; simpl in Hm.
    + destruct (re.match_here p (c :: s) re.NotYet) as [r|] eqn:E.
      * apply elem_of_cons in Hm as [->|Hm].
        -- exists [], (c :: s), r. auto.
        -- destruct (IH _ Hm) as (pre & s' & r' & -> & H1 & H2).
           exists (c :: pre), s', r'. auto.
      * destruct (IH _ Hm) as (pre & s' & r' & -> & H1 & H2).
        exists (c :: pre), s', r'. auto.
    + destruct (IH _ Hm) as (pre & s' & r' & -> & H1 & H2).
      exists (c :: pre), s', r'. auto.
Qed.

(** ** The drivers, step by step *)

(** With a version that [to_cpy_ver] accepts and [PATH] set, the native
    driver is one run of the runner on the overlay. *)
Lemma jaxlib_driver_runs (jax_path rocm_path python_version : text)
  (xla_path : option text) (w : World) (cpy old : text) :
  to_cpy_ver python_version = Return cpy ->
  environ w !! str "PATH" = Some old ->
  exists (cmd : list text) (m : message),
    cmd = [str "python"; str "build/build.py"; str "--enable_rocm";
           str "--build_gpu_plugin"; str "--gpu_plugin_rocm_version=60";
           str "--rocm_path=" ++ rocm_path]
          ++ match xla_path with
             | Some (c :: x) =>
               [str "--bazel_options=--override_repository=xla=" ++ c :: x]
             | _ => []
             end
    /\ build_jaxlib_wheel jax_path rocm_path python_version xla_path w
       = _run_scan_for_output cmd wheel_pattern
           (Some (dict_obj (fresh (dom (dicts w))))) (Some jax_path)
           (Some (str "stderr")) (overlay_built (py_bin_of cpy) old m w).
Proof.
  intros Hcpy Hpath. unfold build_jaxlib_wheel. cbv zeta.
  erewrite bind_Return; [|apply call_Return; exact Hcpy].
  rewrite overlay_spec, Hpath.
  erewrite bind_Return; [|reflexivity].
  eexists _, _. split; [|reflexivity].
  destruct xla_path as [[|c x]|]; reflexivity.
Qed.

(** The same for the packaging driver, which then maps the names found to
    paths under [dist]. *)
Lemma jax_driver_runs (jax_path python_version : text) (w : World)
  (cpy old : text) :
  to_cpy_ver python_version = Return cpy ->
  environ w !! str "PATH" = Some old ->
  exists m : message,
    build_jax_wheel jax_path python_version w
    = (wheels ← _run_scan_for_output [str "python"; str "-m"; str "build"]
                  build_pattern (Some (dict_obj (fresh (dom (dicts w)))))
                  (Some jax_path) (Some (str "stdout"));
       mret (map (fun x => os_path.join jax_path [str "dist"; x]) wheels))
        (overlay_built (py_bin_of cpy) old m w).
Proof.
  intros Hcpy Hpath. unfold build_jax_wheel. cbv zeta.
  erewrite bind_Return; [|apply call_Return; exact Hcpy].
  rewrite overlay_spec, Hpath.
  erewrite bind_Return; [|reflexivity].
  eexists. reflexivity.
Qed.

Lemma jaxlib_driver_early (jax_path rocm_path python_version : text)
  (xla_path : option text) (w : World) :
  (forall e : exn, to_cpy_ver python_version = Raise e ->
     build_jaxlib_wheel jax_path rocm_path python_version xla_path w
     = (Raise e, w))
  /\ (forall cpy : text, to_cpy_ver python_version = Return cpy ->
      environ w !! str "PATH" = None ->
      build_jaxlib_wheel jax_path rocm_path python_version xla_path w
      = (Raise (KeyError (str "PATH")), overlay_failed w)).
Proof.
  split.
  - intros e He. unfold build_jaxlib_wheel. cbv zeta.
    erewrite bind_Raise; [reflexivity|apply call_Raise; exact He].
  - intros cpy Hcpy Hpath. unfold build_jaxlib_wheel. cbv zeta.
    erewrite bind_Return; [|apply call_Return; exact Hcpy].
    rewrite overlay_spec, Hpath. reflexivity.
Qed.

Lemma jax_driver_early (jax_path python_version : text) (w : World) :
  (forall e : exn, to_cpy_ver python_version = Raise e ->
     build_jax_wheel jax_path python_version w = (Raise e, w))
  /\ (forall cpy : text, to_cpy_ver python_version = Return cpy ->
      environ w !! str "PATH" = None ->
      build_jax_wheel jax_path python_version w
      = (Raise (KeyError (str "PATH")), overlay_failed w)).
Proof.
  split.
  - intros e He. unfold build_jax_wheel. cbv zeta.
    erewrite bind_Raise; [reflexivity|apply call_Raise; exact He].
  - intros cpy Hcpy Hpath. unfold build_jax_wheel. cbv zeta.
    erewrite bind_Return; [|apply call_Return; exact Hcpy].
    rewrite overlay_spec, Hpath. reflexivity.
Qed.

Lemma fst_bind_mret {A B : Type} (m : M A) (f : A -> B) (w : World) (b : B) :
  fst ((x ← m; mret (f x)) w) = Return b ->
  exists a : A, fst (m w) = Return a /\ b = f a.
Proof.
  unfold mbind, M_bind. destruct (m w) as [[a|e] w']; simpl.
  - intros [= <-]. eauto.
  - discriminate.
Qed.

(** What the runner returns is what [findall] finds in the text kept of
    the captured stream of the child it started. *)
Lemma run_scan_Return_child (cmd : list text) (pattern : list re.node)
  (env : option dict_ref) (cwd capture : option text) (w : World)
  (wheels : list text) :
  fst (_run_scan_for_output cmd pattern env cwd capture w) = Return wheels ->
  exists c : child,
    launches w cmd env cwd c
    /\ wheels = re.findall pattern (captured_text capture c).
Proof.
  destruct (spawn (host w) (length (launched w)) cmd (child_env env w) cwd)
    as [c|] eqn:Hs.
  - rewrite (run_scan_launched _ _ _ _ _ _ c Hs).
    intros H. apply scan_outcome_Return in H. exists c. split; assumption.
  - rewrite (run_scan_not_started _ _ _ _ _ _ Hs). discriminate.
Qed.

(** X1. Every path [build_jaxlib_wheel] returns was printed by the child
    it started for the build command: the text kept of the child's error
    stream holds [Output wheel: ], the path and a newline, and the path is
    a non-empty string without newline. *)
Theorem jaxlib_wheels_are_single_lines
  (jax_path rocm_path python_version : text) (xla_path : option text)
  (w : World) (wheels : list text) :
  fst (build_jaxlib_wheel jax_path rocm_path python_version xla_path w)
  = Return wheels ->
  exists (c : child) (vars : dict),
    spawn (host w) (length (launched w)) (jaxlib_cmd rocm_path xla_path) vars
      (Some jax_path) = Some c
    /\ Forall (fun g : text =>
                g <> [] /\ no_newline g = true
                /\ exists pre post : text,
                     captured_text (Some (str "stderr")) c
                     = pre ++ str "Output wheel: " ++ g ++ NL :: post) wheels.
Proof.
  intros H.
  destruct (to_cpy_ver python_version) as [cpy|e] eqn:Hcpy.
  2: { rewrite (proj1 (jaxlib_driver_early _ _ _ _ _) e Hcpy) in H.
       discriminate. }
  destruct (environ w !! str "PATH") as [old|] eqn:Hpath.
  2: { rewrite (proj2 (jaxlib_driver_early _ _ _ _ _) cpy Hcpy Hpath) in H.
       discriminate. }
  destruct (jaxlib_driver_runs jax_path rocm_path python_version xla_path w
              cpy old Hcpy Hpath) as (cmd & m & Hcmd & Hrun).
  rewrite Hrun in H. apply run_scan_Return_child in H as (c & Hc & ->).
  exists c. eexists. split.
  - rewrite Hcmd in Hc. exact Hc.
  - apply Forall_forall. intros g Hg.
    apply findall_from_elem in Hg as (pre & s' & r & Htext & Hm & ->).
    apply wheel_pattern_match in Hm as (g & rest & Hne & Hnl & -> & ->).
    split; [exact Hne|]. split; [exact Hnl|]. exists pre, rest. exact Htext.
Qed.

Lemma jaxlib_wheels_are_single_lines_witness :
  let c := sample_child [] [Some wheel_line] 0 in
  exists pre post : text,
    captured_text (Some (str "stderr")) c
    = pre ++ str "Output wheel: " ++ str "/tmp/out/pkg-1.0-cp310.whl"
      ++ NL :: post.
Proof.
  intros c.
  destruct (jaxlib_wheels_are_single_lines (str "/src/jax") (str "/opt/rocm")
              (str "3.10") None (sample_world c)
              [str "/tmp/out/pkg-1.0-cp310.whl"] eq_refl)
    as (c' & vars & Hc & Hall).
  injection Hc as <-.
  apply Forall_cons in Hall as [(_ & _ & Hg) _]. exact Hg.
Defined.

(** X2. Every path [build_jax_wheel] returns is
    [os.path.join(jax_path, "dist")], a separator and the name the child
    started for [python -m build] printed after [Successfully built jax-..
    and ]: the name starts with [jax-], ends with [.whl] and holds no
    newline.  Nothing else limits the name: it may hold separators. *)
Theorem jax_wheels_are_in_dist (jax_path python_version : text) (w : World)
  (paths : list text) :
  fst (build_jax_wheel jax_path python_version w) = Return paths ->
  exists (c : child) (vars : dict),
    spawn (host w) (length (launched w)) [str "python"; str "-m"; str "build"]
      vars (Some jax_path) = Some c
    /\ Forall (fun p : text =>
                exists a b pre post : text,
                  b <> [] /\ no_newline b = true
                  /\ captured_text (Some (str "stdout")) c
                     = pre ++ str "Successfully built jax-" ++ a
                       ++ str " and jax-" ++ b ++ str ".whl" ++ NL :: post
                  /\ p = os_path.join jax_path [str "dist"]
                         ++ str "/jax-" ++ b ++ str ".whl") paths.
Proof.
  intros H.
  destruct (to_cpy_ver python_version) as [cpy|e] eqn:Hcpy.
  2: { rewrite (proj1 (jax_driver_early _ _ _) e Hcpy) in H. discriminate. }
  destruct (environ w !! str "PATH") as [old|] eqn:Hpath.
  2: { rewrite (proj2 (jax_driver_early _ _ _) cpy Hcpy Hpath) in H.
       discriminate. }
  destruct (jax_driver_runs jax_path python_version w cpy old Hcpy Hpath)
    as (m & Hrun).
  rewrite Hrun in H. apply fst_bind_mret in H as (wheels & H & ->).
  apply run_scan_Return_child in H as (c & Hc & ->).
  exists c. eexists. split; [exact Hc|].
  apply Forall_forall. intros p Hp.
  apply list_elem_of_fmap in Hp as (g & -> & Hg).
  apply findall_from_elem in Hg as (pre & s' & r & Htext & Hm & ->).
  apply build_pattern_match in Hm as (a & b & rest & Hne & Hnl & -> & ->).
  exists a, b, pre, rest. split; [exact Hne|]. split; [exact Hnl|].
  split; [exact Htext|].
  unfold re.reported. cbn [fst].
  unfold os_path.join. cbn [fold_left].
  rewrite join2_relative.
  - reflexivity.
  - reflexivity.
  - unfold os_path.join2. cbn [os_path.startswith_sep str].
    destruct (os_path.is_empty jax_path || os_path.endswith_sep jax_path);
      destruct jax_path; discriminate.
  - unfold os_path.join2.
    change (os_path.startswith_sep (str "dist")) with false. cbn iota.
    change (str "dist") with ([100; 105; 115] ++ [116]).
    destruct (os_path.is_empty jax_path || os_path.endswith_sep jax_path);
      rewrite !app_assoc; apply endswith_sep_snoc; discriminate.
Qed.

Lemma jax_wheels_are_in_dist_witness :
  let c := sample_child
             [Some (literal_bytes "Successfully built jax-1.0 and jax-/../../x.whl"
                    ++ [x0a])] [] 0 in
  fst (build_jax_wheel (str "/src/jax/") (str "3.12") (sample_world c))
  = Return [str "/src/jax/dist/jax-/../../x.whl"]
  /\ exists a b pre post : text,
       captured_text (Some (str "stdout")) c
       = pre ++ str "Successfully built jax-" ++ a
         ++ str " and jax-" ++ b ++ str ".whl" ++ NL :: post
       /\ str "/src/jax/dist/jax-/../../x.whl"
          = os_path.join (str "/src/jax/") [str "dist"]
            ++ str "/jax-" ++ b ++ str ".whl".
Proof.
  intros c. split; [reflexivity|].
  destruct (jax_wheels_are_in_dist (str "/src/jax/") (str "3.12")
              (sample_world c) [str "/src/jax/dist/jax-/../../x.whl"] eq_refl)
    as (c' & vars & Hc & Hall).
  injection Hc as <-.
  apply Forall_cons in Hall as [(a & b & pre & post & _ & _ & H1 & H2) _].
  exists a, b, pre, post. split; assumption.
Defined.

Lemma wheel_line_match (g rest : text) :
  g <> [] -> no_newline g = true ->
  re.match_here wheel_pattern (str "Output wheel: " ++ g ++ NL :: rest) re.NotYet
  = Some (re.Captured g, rest).
Proof.
  intros Hne Hg. rewrite wheel_pattern_nodes. apply lits_match.
  exists (g ++ NL :: rest). split; [reflexivity|].
  rewrite cap_pushes_NotYet, match_here_open. cbn [re.cap_open].
  apply plus_any_complete; [reflexivity|exact Hne|exact Hg|].
  rewrite cap_pushes_Capturing, app_nil_r, match_here_close.
  cbn [re.cap_close]. rewrite rev_involutive.
  apply match_here_newline. eauto.
Qed.

(** X3. Any wheel path printed is returned as printed.  When the error
    stream of the native build ends with the line [Output wheel: g], for a
    non-empty [g] without newline, the pattern matches nowhere earlier, the
    stream fits the buffer and the child exits with status 0,
    [build_jaxlib_wheel] returns exactly [[g]]. *)
Theorem jaxlib_returns_printed_path (jax_path rocm_path python_version : text)
  (xla_path : option text) (w : World) (c : child) (cpy old pre g : text) :
  to_cpy_ver python_version = Return cpy ->
  environ w !! str "PATH" = Some old ->
  next_child w c ->
  forallb decodes (chunks_read (child_stderr c)) = true ->
  concat (decoded_chunks (chunks_read (child_stderr c)))
  = pre ++ str "Output wheel: " ++ g ++ [NL] ->
  Z.of_nat (length (pre ++ str "Output wheel: " ++ g ++ [NL])) <= 20000 ->
  (forall i : nat, (i < length pre)%nat ->
     re.match_here wheel_pattern
       (drop i (pre ++ str "Output wheel: " ++ g ++ [NL])) re.NotYet = None) ->
  g <> [] ->
  no_newline g = true ->
  returncode c = 0 ->
  fst (build_jaxlib_wheel jax_path rocm_path python_version xla_path w)
  = Return [g].
Proof.
  intros Hcpy Hpath Hnext Hdec Hstream Hlen Hpre Hne Hg Hrc.
  destruct (jaxlib_driver_runs jax_path rocm_path python_version xla_path w
              cpy old Hcpy Hpath) as (cmd & m & _ & ->).
  rewrite (run_scan_launched _ _ _ _ _ _ c (next_child_launches _ _ _ _ _ _ _ _ Hnext)).
  unfold scan_outcome, captured_pipe.
  rewrite decide_True by reflexivity.
  rewrite Hdec, Hrc, Hstream. cbn [Z.eqb].
  rewrite last_chars_all by exact Hlen.
  rewrite (findall_occurrences wheel_pattern _ [g]); [reflexivity|].
  apply (occ_next wheel_pattern pre (str "Output wheel: " ++ g ++ [NL])
           (re.Captured g, []) []).
  - exact Hpre.
  - apply wheel_line_match; assumption.
  - rewrite length_app. simpl. lia.
  - apply occ_none. intros i. destruct i; reflexivity.
Qed.

Lemma jaxlib_returns_printed_path_witness :
  let c := sample_child []
             [Some (literal_bytes "ld: ok" ++ [x0a]);
              Some (literal_bytes "Output wheel: dist/a b.whl" ++ [x0a])] 0 in
  fst (build_jaxlib_wheel (str "/src/jax") (str "/opt/rocm") (str "3.12")
         (Some (str "/src/xla")) (sample_world c))
  = Return [str "dist/a b.whl"].
Proof.
  intros c.
  apply (jaxlib_returns_printed_path (str "/src/jax") (str "/opt/rocm")
           (str "3.12") (Some (str "/src/xla")) (sample_world c) c
           (str "cp312") (str "/usr/bin") (str "ld: ok" ++ [NL])
           (str "dist/a b.whl"));
    [reflexivity|reflexivity|intros cmd vars cwd; reflexivity|reflexivity
    |reflexivity|vm_compute; discriminate| |discriminate|reflexivity
    |reflexivity].
  intros i Hi. do 7 (destruct i as [|i]; [reflexivity|]).
  simpl in Hi. lia.
Defined.

(** X4. Both drivers fail before anything is launched when the version is
    not one [to_cpy_ver] accepts, with the exception it raised and the
    world as it was; and with [KeyError: 'PATH'] when the parent has no
    [PATH], nothing being launched or logged and [os.environ] left as it
    was. *)
Theorem drivers_fail_before_launch (jax_path rocm_path python_version : text)
  (xla_path : option text) (w : World) :
  (forall e : exn, to_cpy_ver python_version = Raise e ->
     build_jaxlib_wheel jax_path rocm_path python_version xla_path w
     = (Raise e, w)
     /\ build_jax_wheel jax_path python_version w = (Raise e, w))
  /\ (forall cpy : text, to_cpy_ver python_version = Return cpy ->
      environ w !! str "PATH" = None ->
      forall r : outcome (list text) * World,
        r = build_jaxlib_wheel jax_path rocm_path python_version xla_path w
        \/ r = build_jax_wheel jax_path python_version w ->
        fst r = Raise (KeyError (str "PATH"))
        /\ launched (snd r) = launched w
        /\ log (snd r) = log w
        /\ environ (snd r) = environ w).
Proof.
  split.
  - intros e He. split.
    + apply (proj1 (jaxlib_driver_early _ _ _ _ _) e He).
    + apply (proj1 (jax_driver_early _ _ _) e He).
  - intros cpy Hcpy Hpath r [->| ->].
    + rewrite (proj2 (jaxlib_driver_early _ _ _ _ _) cpy Hcpy Hpath). auto.
    + rewrite (proj2 (jax_driver_early _ _ _) cpy Hcpy Hpath). auto.
Qed.

Lemma drivers_fail_before_launch_witness :
  let w := sample_world (sample_child [] [] 0) in
  (build_jaxlib_wheel (str "/src/jax") (str "/opt/rocm") (str "3") None w
   = (Raise IndexError, w)
   /\ build_jax_wheel (str "/src/jax") (str "3") w = (Raise IndexError, w))
  /\ fst (build_jax_wheel (str "/src/jax") (str "3.12") (set_environ ∅ w))
     = Raise (KeyError (str "PATH")).
Proof.
  intros w. split.
  - apply (proj1 (drivers_fail_before_launch (str "/src/jax") (str "/opt/rocm")
                    (str "3") None w) IndexError eq_refl).
  - apply (proj2 (drivers_fail_before_launch (str "/src/jax") (str "/opt/rocm")
                    (str "3.12") None (set_environ ∅ w)) (str "cp312"));
      [reflexivity|reflexivity|right; reflexivity].
Defined.

(** The runner launches at most one process, with the command, the
    directory and the pipes it was asked for. *)
Lemma run_scan_launch_record (cmd : list text) (pattern : list re.node)
  (env : option dict_ref) (cwd capture : option text) (w : World) :
  let w' := snd (_run_scan_for_output cmd pattern env cwd capture w) in
  launched w' = launched w
  \/ launched w'
     = launched w
       ++ [{| l_cmd := cmd; l_env := env; l_vars := child_env env w;
              l_cwd := cwd;
              l_stdout := if decide (capture = Some (str "stderr"))
                          then inherited else PIPE;
              l_stderr := if decide (capture = Some (str "stderr"))
                          then PIPE else inherited |}].
Proof.
  intros w'. subst w'.
  destruct (spawn (host w) (length (launched w)) cmd (child_env env w) cwd)
    as [c|] eqn:Hs.
  - right. rewrite (run_scan_spec _ _ _ _ _ _ c Hs).
    destruct (decide (capture = Some (str "stderr")));
      rewrite scan_outcome_launched; reflexivity.
  - left. rewrite (run_scan_not_started _ _ _ _ _ _ Hs). reflexivity.
Qed.

(** X5. [build_jaxlib_wheel] launches at most one process: the build
    script with the toolkit path, and with the XLA override exactly when
    [xla_path] is a non-empty string ([None] and the empty string add
    nothing), run in [jax_path], its error stream piped and its output
    stream inherited. *)
Theorem jaxlib_launch_shape (jax_path rocm_path python_version : text)
  (xla_path : option text) (w : World) :
  let w' := snd (build_jaxlib_wheel jax_path rocm_path python_version
                   xla_path w) in
  launched w' = launched w
  \/ exists l : launch,
       launched w' = launched w ++ [l]
       /\ l_cmd l
          = [str "python"; str "build/build.py"; str "--enable_rocm";
             str "--build_gpu_plugin"; str "--gpu_plugin_rocm_version=60";
             str "--rocm_path=" ++ rocm_path]
            ++ match xla_path with
               | Some (c :: x) =>
                 [str "--bazel_options=--override_repository=xla=" ++ c :: x]
               | _ => []
               end
       /\ l_cwd l = Some jax_path
       /\ l_stdout l = inherited
       /\ l_stderr l = PIPE.
Proof.
  intros w'. subst w'.
  destruct (to_cpy_ver python_version) as [cpy|e] eqn:Hcpy.
  2: { rewrite (proj1 (jaxlib_driver_early _ _ _ _ _) e Hcpy). auto. }
  destruct (environ w !! str "PATH") as [old|] eqn:Hpath.
  2: { rewrite (proj2 (jaxlib_driver_early _ _ _ _ _) cpy Hcpy Hpath). auto. }
  destruct (jaxlib_driver_runs jax_path rocm_path python_version xla_path w
              cpy old Hcpy Hpath) as (cmd & m & Hcmd & ->).
  destruct (run_scan_launch_record cmd wheel_pattern
              (Some (dict_obj (fresh (dom (dicts w))))) (Some jax_path)
              (Some (str "stderr")) (overlay_built (py_bin_of cpy) old m w))
    as [H|H]; [left; exact H|right].
  eexists. split; [exact H|]. cbn [l_cmd l_cwd l_stdout l_stderr].
  rewrite decide_True by reflexivity. auto.
Qed.

(** X6. [build_jax_wheel] launches at most one process: [python -m build],
    run in [jax_path], its output stream piped and its error stream
    inherited. *)
Theorem jax_launch_shape (jax_path python_version : text) (w : World) :
  let w' := snd (build_jax_wheel jax_path python_version w) in
  launched w' = launched w
  \/ exists l : launch,
       launched w' = launched w ++ [l]
       /\ l_cmd l = [str "python"; str "-m"; str "build"]
       /\ l_cwd l = Some jax_path
       /\ l_stdout l = PIPE
       /\ l_stderr l = inherited.
Proof.
  intros w'. subst w'.
  destruct (to_cpy_ver python_version) as [cpy|e] eqn:Hcpy.
  2: { rewrite (proj1 (jax_driver_early _ _ _) e Hcpy). auto. }
  destruct (environ w !! str "PATH") as [old|] eqn:Hpath.
  2: { rewrite (proj2 (jax_driver_early _ _ _) cpy Hcpy Hpath). auto. }
  destruct (jax_driver_runs jax_path python_version w cpy old Hcpy Hpath)
    as (m & ->).
  rewrite snd_bind_mret.
  destruct (run_scan_launch_record [str "python"; str "-m"; str "build"]
              build_pattern (Some (dict_obj (fresh (dom (dicts w)))))
              (Some jax_path) (Some (str "stdout"))
              (overlay_built (py_bin_of cpy) old m w))
    as [H|H]; [left; exact H|right].
  eexists. split; [exact H|]. cbn [l_cmd l_cwd l_stdout l_stderr].
  rewrite decide_False by discriminate. auto.
Qed.

(** ** The runner: decoding and the tail *)








(** ** The target list, further *)

Lemma can_open_set_files (f : gmap text text) (w : World) (p : text) :
  can_open (set_files f w) p = can_open w p.
Proof. reflexivity. Qed.

(** X10. [update_rocm_targets] overwrites: after a call with other
    targets, a call leaves the same outcome and the same world as if it had
    been the only one. *)
Theorem update_rocm_targets_last_wins (rocm_path targets1 targets2 : text)
  (w : World) :
  update_rocm_targets rocm_path targets2
    (snd (update_rocm_targets rocm_path targets1 w))
  = update_rocm_targets rocm_path targets2 w.
Proof.
  pose proof (target_and_version_differ rocm_path) as Hne.
  rewrite (update_rocm_targets_spec rocm_path targets1 w).
  rewrite (update_rocm_targets_spec rocm_path targets2 w).
  set (target_fp := os_path.join rocm_path [str "bin/target.lst"]) in *.
  set (version_fp := os_path.join rocm_path [str ".info/version"]) in *.
  destruct (can_open w target_fp) eqn:Ht.
  - destruct (can_open w version_fp) eqn:Hv.
    + destruct (files w !! version_fp) as [c|] eqn:Hc;
        cbn [snd]; rewrite update_rocm_targets_spec;
        fold target_fp version_fp;
        rewrite !can_open_set_files, Ht, Hv; cbn [files set_files].
      * rewrite lookup_insert_ne, Hc by exact Hne.
        rewrite insert_insert_eq. reflexivity.
      * rewrite lookup_insert_eq. f_equal.
        rewrite (insert_insert_ne _ target_fp version_fp) by exact Hne.
        rewrite insert_insert_eq. reflexivity.
    + cbn [snd]. rewrite update_rocm_targets_spec.
      fold target_fp version_fp.
      rewrite !can_open_set_files, Ht, Hv. cbn [files set_files].
      rewrite insert_insert_eq. reflexivity.
  - cbn [snd]. rewrite update_rocm_targets_spec.
    fold target_fp version_fp. rewrite Ht. reflexivity.
Qed.

(** X11. [update_rocm_targets] touches the two files it names and nothing
    else: every other file, the environment, the consoles, the log and the
    list of launched processes are as before. *)
Theorem update_rocm_targets_frame (rocm_path targets : text) (w : World) :
  let w' := snd (update_rocm_targets rocm_path targets w) in
  (forall p : text,
     p <> os_path.join rocm_path [str "bin/target.lst"] ->
     p <> os_path.join rocm_path [str ".info/version"] ->
     files w' !! p = files w !! p)
  /\ environ w' = environ w /\ dicts w' = dicts w
  /\ out w' = out w /\ err w' = err w /\ log w' = log w
  /\ launched w' = launched w /\ host w' = host w.
Proof.
  intros w'. subst w'.
  rewrite (update_rocm_targets_spec rocm_path targets w).
  set (target_fp := os_path.join rocm_path [str "bin/target.lst"]).
  set (version_fp := os_path.join rocm_path [str ".info/version"]).
  destruct (can_open w target_fp); [|repeat split].
  destruct (can_open w version_fp);
    [destruct (files w !! version_fp)|];
    cbn [snd files set_files]; (split; [|repeat split]);
    intros p Hp1 Hp2; rewrite ?lookup_insert_ne by congruence; reflexivity.
Qed.

(** X12. There is no rollback.  When the target list cannot be opened the
    call raises and changes nothing; when only the version marker cannot be
    opened the call raises too, but the target list has been overwritten
    already. *)
Theorem update_rocm_targets_partial_failure (rocm_path targets : text)
  (w : World) :
  let target_fp := os_path.join rocm_path [str "bin/target.lst"] in
  let version_fp := os_path.join rocm_path [str ".info/version"] in
  (can_open w target_fp = false ->
   update_rocm_targets rocm_path targets w = (Raise (OSError target_fp), w))
  /\ (can_open w target_fp = true -> can_open w version_fp = false ->
      fst (update_rocm_targets rocm_path targets w) = Raise (OSError version_fp)
      /\ files (snd (update_rocm_targets rocm_path targets w)) !! target_fp
         = Some (targets ++ [NL])
      /\ files (snd (update_rocm_targets rocm_path targets w)) !! version_fp
         = files w !! version_fp).
Proof.
  intros target_fp version_fp.
  pose proof (target_and_version_differ rocm_path) as Hne.
  fold target_fp version_fp in Hne.
  rewrite (update_rocm_targets_spec rocm_path targets w).
  fold target_fp version_fp. split.
  - intros ->. reflexivity.
  - intros -> ->. cbn [fst snd files set_files].
    rewrite lookup_insert_eq, lookup_insert_ne by exact Hne. auto.
Qed.

Lemma update_rocm_targets_partial_failure_witness :
  (let w := set_writable (fun _ => false) rocm_world in
   update_rocm_targets (str "/opt/rocm") (str "gfx942") w
   = (Raise (OSError (str "/opt/rocm/bin/target.lst")), w))
  /\ (let w := set_writable
                 (fun p => bool_decide (p = str "/opt/rocm/bin/target.lst"))
                 rocm_world in
      fst (update_rocm_targets (str "/opt/rocm") (str "gfx942") w)
      = Raise (OSError (str "/opt/rocm/.info/version"))
      /\ files (snd (update_rocm_targets (str "/opt/rocm") (str "gfx942") w))
         !! str "/opt/rocm/bin/target.lst"
         = Some (str "gfx942" ++ [NL])).
Proof.
  split.
  - intros w.
    apply (proj1 (update_rocm_targets_partial_failure (str "/opt/rocm")
                    (str "gfx942") w)).
    reflexivity.
  - intros w.
    destruct (proj2 (update_rocm_targets_partial_failure (str "/opt/rocm")
                       (str "gfx942") w) eq_refl eq_refl) as (H1 & H2 & _).
    split; [exact H1|exact H2].
Defined.

(** ** Version strings *)

Lemma split_no_sep (sep : Z) (a : text) :
  forallb (fun c => negb (c =? sep)) a = true -> split sep a = [a].
Proof.
  induction a as [|c a IH]; [reflexivity|].
  simpl. intros H. apply andb_prop in H as [Hc Ha].
  apply negb_true_iff in Hc. rewrite Hc, (IH Ha). reflexivity.
Qed.

Lemma split_app_sep (sep : Z) (a r : text) :
  forallb (fun c => negb (c =? sep)) a = true ->
  split sep (a ++ sep :: r) = a :: split sep r.
Proof.
  induction a as [|c a IH]; intros H.
  - simpl. rewrite Z.eqb_refl. reflexivity.
  - simpl in H. apply andb_prop in H as [Hc Ha].
    apply negb_true_iff in Hc. simpl. rewrite Hc, (IH Ha). reflexivity.
Qed.

Lemma to_cpy_ver_ignores_patch_aux (a b rest : text) :
  no_dot a = true -> no_dot b = true ->
  to_cpy_ver (a ++ 46 :: b ++ 46 :: rest) = to_cpy_ver (a ++ 46 :: b).
Proof.
  intros Ha Hb. unfold to_cpy_ver. cbv zeta.
  rewrite !(split_app_sep 46 a) by exact Ha.
  rewrite (split_app_sep 46 b) by exact Hb.
  rewrite (split_no_sep 46 b) by exact Hb.
  reflexivity.
Qed.

(** X13. Only the first two components of a version count: what follows a
    second dot is ignored, so [3.10.19] is read as [3.10], and a version
    whose first two components are refused is refused in the same way. *)
Theorem to_cpy_ver_ignores_patch (a b rest : text) :
  no_dot a = true -> no_dot b = true ->
  to_cpy_ver (a ++ str "." ++ b ++ str "." ++ rest)
  = to_cpy_ver (a ++ str "." ++ b).
Proof.
  intros Ha Hb. exact (to_cpy_ver_ignores_patch_aux a b rest Ha Hb).
Qed.

Lemma to_cpy_ver_ignores_patch_witness :
  to_cpy_ver (str "3.10.19") = to_cpy_ver (str "3.10")
  /\ to_cpy_ver (str "3.x.19,3.12") = to_cpy_ver (str "3.x").
Proof.
  split.
  - apply (to_cpy_ver_ignores_patch (str "3") (str "10") (str "19"));
      reflexivity.
  - apply (to_cpy_ver_ignores_patch (str "3") (str "x") (str "19,3.12"));
      reflexivity.
Defined.

(** X14. A version without a dot is never accepted: whatever [int] makes
    of the whole string, [to_cpy_ver] raises; it raises [IndexError] when
    [int] converts the string (the second component is looked up only after
    the first was converted) and the [ValueError] of [int] when it does
    not. *)
Theorem to_cpy_ver_needs_a_dot (s : text) :
  no_dot s = true ->
  (forall v : text, to_cpy_ver s <> Return v)
  /\ (forall n : Z, int s = Some n -> to_cpy_ver s = Raise IndexError)
  /\ (int s = None -> to_cpy_ver s = Raise ValueError).
Proof.
  intros Hs. unfold to_cpy_ver. cbv zeta.
  rewrite (split_no_sep 46 s) by exact Hs.
  cbn [lookup list_lookup or_else mbind outcome_bind].
  destruct (int s) as [n|]; repeat split; try discriminate; reflexivity.
Qed.

Lemma to_cpy_ver_needs_a_dot_witness :
  to_cpy_ver (str "310") = Raise IndexError
  /\ to_cpy_ver [1635] = Raise IndexError
  /\ to_cpy_ver (str "") = Raise ValueError
  /\ to_cpy_ver (str "cp310") = Raise ValueError.
Proof.
  split; [|split; [|split]].
  - apply (proj1 (proj2 (to_cpy_ver_needs_a_dot (str "310") eq_refl)) 310).
    reflexivity.
  - apply (proj1 (proj2 (to_cpy_ver_needs_a_dot [1635] eq_refl)) 3).
    reflexivity.
  - apply (proj2 (proj2 (to_cpy_ver_needs_a_dot (str "") eq_refl))).
    reflexivity.
  - apply (proj2 (proj2 (to_cpy_ver_needs_a_dot (str "cp310") eq_refl))).
    reflexivity.
Defined.

Lemma digits_step (acc : Z) (b : bool) (c : Z) (r : text) :
  is_digit c = true ->
  digits acc b (c :: r) = digits (10 * acc + (c - 48)) true r.
Proof. unfold is_digit. intros H. simpl. rewrite H. reflexivity. Qed.

Lemma str_String (a : ascii) (s : string) :
  str (String a s) = ord a :: str s.
Proof. reflexivity. Qed.

(** Reading back the digits of a positive number, after a prefix worth
    [acc]. *)
Lemma digits_of_uint_acc (d : Decimal.uint) :
  forall acc : positive,
  digits (Z.pos acc) true (str (NilEmpty.string_of_uint d))
  = Some (Z.pos (Pos.of_uint_acc d acc)).
Proof.
  induction d as [|d IH|d IH|d IH|d IH|d IH|d IH|d IH|d IH|d IH|d IH];
    intros acc; [reflexivity|..];
    cbn [NilEmpty.string_of_uint Pos.of_uint_acc]; rewrite str_String;
    rewrite digits_step by reflexivity; rewrite <- IH; f_equal;
    vm_compute (ord _); lia.
Qed.

Lemma digits_of_uint (d : Decimal.uint) :
  digits 0 true (str (NilEmpty.string_of_uint d))
  = Some (Z.of_N (Pos.of_uint d)).
Proof.
  induction d as [|d IH|d IH|d IH|d IH|d IH|d IH|d IH|d IH|d IH|d IH];
    [reflexivity|exact IH|..];
    cbn [NilEmpty.string_of_uint Pos.of_uint]; rewrite str_String;
    rewrite digits_step by reflexivity;
    exact (digits_of_uint_acc d _).
Qed.

Lemma digits_of_uint_first (d : Decimal.uint) :
  d <> Decimal.Nil ->
  digits 0 false (str (NilEmpty.string_of_uint d))
  = Some (Z.of_N (Pos.of_uint d)).
Proof.
  intros Hd. rewrite <- digits_of_uint.
  destruct d; [contradiction|..];
    cbn [NilEmpty.string_of_uint]; rewrite str_String;
    rewrite !digits_step by reflexivity; reflexivity.
Qed.

Lemma uint_chars_are_digits (d : Decimal.uint) :
  forallb is_digit (str (NilEmpty.string_of_uint d)) = true.
Proof. induction d; [reflexivity|..]; exact IHd. Qed.

Lemma digit_facts (c : Z) :
  is_digit c = true ->
  is_space c = false /\ c <> 45 /\ c <> 43 /\ c <> 46.
Proof.
  unfold is_digit, is_space, in_range. intros H.
  apply andb_prop in H as [H1 H2]. apply Z.leb_le in H1, H2.
  repeat split; lia.
Qed.

Lemma lstrip_id (c : Z) (s : text) :
  is_space c = false -> lstrip (c :: s) = c :: s.
Proof. intros H. simpl. rewrite H. reflexivity. Qed.

(** [strip] leaves alone a text that neither starts nor ends with white
    space. *)
Lemma strip_id (c : Z) (s : text) (e : Z) :
  is_space c = false -> is_space e = false ->
  strip (c :: s ++ [e]) = c :: s ++ [e].
Proof.
  intros Hc He. unfold strip. rewrite (lstrip_id c _ Hc).
  cbn [rev]. rewrite rev_app_distr. cbn [rev app].
  rewrite (lstrip_id e _ He).
  cbn [rev]. rewrite rev_app_distr, rev_involutive. reflexivity.
Qed.

Lemma strip_one (c : Z) : is_space c = false -> strip [c] = [c].
Proof. intros H. unfold strip. simpl. rewrite H. simpl. rewrite H. reflexivity. Qed.

Lemma strip_nonspace (s : text) :
  forallb (fun c => negb (is_space c)) s = true -> strip s = s.
Proof.
  intros H. destruct s as [|c s]; [reflexivity|].
  destruct (rev s) as [|e t] eqn:Hrev.
  - apply (f_equal (@rev Z)) in Hrev. rewrite rev_involutive in Hrev.
    subst s. simpl in H. apply andb_prop in H as [Hc _].
    apply strip_one. apply negb_true_iff. exact Hc.
  - apply (f_equal (@rev Z)) in Hrev. rewrite rev_involutive in Hrev.
    simpl in Hrev. subst s.
    simpl in H. apply andb_prop in H as [Hc H].
    rewrite forallb_app in H. apply andb_prop in H as [_ He].
    simpl in He. apply andb_prop in He as [He _].
    apply strip_id; apply negb_true_iff; assumption.
Qed.

Lemma digits_nonspace (s : text) :
  forallb is_digit s = true ->
  forallb (fun c => negb (is_space c)) s = true.
Proof.
  induction s as [|c s IH]; [reflexivity|].
  simpl. intros H. apply andb_prop in H as [Hc Hs].
  rewrite (IH Hs). destruct (digit_facts c Hc) as (-> & _). reflexivity.
Qed.

Lemma digits_no_dot (s : text) : forallb is_digit s = true -> no_dot s = true.
Proof.
  induction s as [|c s IH]; [reflexivity|].
  unfold no_dot in *. simpl. intros H. apply andb_prop in H as [Hc Hs].
  rewrite (IH Hs). destruct (digit_facts c Hc) as (_ & _ & _ & Hd).
  apply Z.eqb_neq in Hd. rewrite Hd. reflexivity.
Qed.

Lemma to_ascii_digits (s : text) :
  forallb is_digit s = true -> map to_ascii s = s.
Proof.
  induction s as [|c s IH]; [reflexivity|].
  simpl. intros H. apply andb_prop in H as [Hc Hs]. rewrite (IH Hs).
  f_equal. unfold to_ascii. unfold is_digit, in_range in Hc.
  apply andb_prop in Hc as [_ Hc]. apply Z.leb_le in Hc.
  destruct (Z.ltb_spec c 127); [reflexivity|lia].
Qed.

(** Reading back a sequence of digits that is not too long, with or without
    a minus sign. *)
Lemma int_of_uint (d : Decimal.uint) :
  d <> Decimal.Nil ->
  digit_count (str (NilEmpty.string_of_uint d)) <= int_max_str_digits ->
  int (str (NilEmpty.string_of_uint d)) = Some (Z.of_N (Pos.of_uint d))
  /\ int (45 :: str (NilEmpty.string_of_uint d))
     = Some (- Z.of_N (Pos.of_uint d)).
Proof.
  intros Hd Hlim. pose proof (uint_chars_are_digits d) as Hdig.
  pose proof (digits_of_uint_first d Hd) as Hval.
  apply Z.leb_le in Hlim.
  split.
  - unfold int. rewrite (to_ascii_digits _ Hdig).
    rewrite strip_nonspace by (apply digits_nonspace; exact Hdig).
    unfold numeral.
    destruct (str (NilEmpty.string_of_uint d)) as [|c r] eqn:E;
      [discriminate|].
    simpl in Hdig. apply andb_prop in Hdig as [Hc _].
    destruct (digit_facts c Hc) as (_ & H45 & H43 & _).
    apply Z.eqb_neq in H45, H43. rewrite H45, H43, Hlim. exact Hval.
  - unfold int. cbn [map]. rewrite (to_ascii_digits _ Hdig).
    change (to_ascii 45) with 45.
    rewrite strip_nonspace.
    + rewrite Z.eqb_refl. unfold numeral. rewrite Hlim, Hval. reflexivity.
    + simpl. apply digits_nonspace. exact Hdig.
Qed.

Lemma NilZero_nonnil (d : Decimal.uint) :
  d <> Decimal.Nil ->
  NilZero.string_of_uint d = NilEmpty.string_of_uint d.
Proof. destruct d; [contradiction|..]; reflexivity. Qed.

(** [int] reads back what ["%d"] writes, up to the longest numeral it
    converts. *)
Lemma int_dec (n : Z) :
  digit_count (dec n) <= int_max_str_digits -> int (dec n) = Some n.
Proof.
  unfold dec. destruct n as [|p|p]; [reflexivity|..];
    cbn [Z.to_int NilZero.string_of_int];
    rewrite NilZero_nonnil by apply DecimalPos.Unsigned.to_uint_nonnil;
    intros Hlim.
  - rewrite (proj1 (int_of_uint _ (DecimalPos.Unsigned.to_uint_nonnil p) Hlim)).
    rewrite DecimalPos.Unsigned.of_to. reflexivity.
  - rewrite str_String in *.
    change (ord "-") with 45 in *.
    rewrite (proj2 (int_of_uint _ (DecimalPos.Unsigned.to_uint_nonnil p) Hlim)).
    rewrite DecimalPos.Unsigned.of_to. reflexivity.
Qed.

Lemma dec_no_dot (n : Z) : no_dot (dec n) = true.
Proof.
  unfold dec. destruct n as [|p|p]; [reflexivity|..];
    cbn [Z.to_int NilZero.string_of_int];
    rewrite NilZero_nonnil by apply DecimalPos.Unsigned.to_uint_nonnil.
  - apply digits_no_dot, uint_chars_are_digits.
  - rewrite str_String. unfold no_dot. cbn [forallb].
    change (negb (ord "-" =? 46)) with true. cbn [andb].
    apply digits_no_dot, uint_chars_are_digits.
Qed.

(** X15. A version written as two decimal numbers joined by a dot, alone
    or followed by a dot and anything, is accepted when neither number has
    more digits than [int] converts, and the tag is [cp] followed by the two
    numbers as written. *)
Theorem to_cpy_ver_of_numbers (major minor : Z) (tail : text) :
  digit_count (dec major) <= int_max_str_digits ->
  digit_count (dec minor) <= int_max_str_digits ->
  tail = [] \/ (exists rest : text, tail = 46 :: rest) ->
  to_cpy_ver (dec major ++ str "." ++ dec minor ++ tail)
  = Return (str "cp" ++ dec major ++ dec minor).
Proof.
  intros Hmajor Hminor Htail.
  assert (H : to_cpy_ver (dec major ++ str "." ++ dec minor)
              = Return (str "cp" ++ dec major ++ dec minor)).
  { unfold to_cpy_ver. cbv zeta. change (str ".") with [46]. cbn [app].
    rewrite (split_app_sep 46 _ _ (dec_no_dot major)).
    rewrite (split_no_sep 46 _ (dec_no_dot minor)).
    cbn [lookup list_lookup or_else mbind outcome_bind].
    rewrite (int_dec _ Hmajor), (int_dec _ Hminor). reflexivity. }
  destruct Htail as [->|(rest & ->)].
  - rewrite app_nil_r. exact H.
  - rewrite <- H.
    apply (to_cpy_ver_ignores_patch_aux (dec major) (dec minor) rest
             (dec_no_dot major) (dec_no_dot minor)).
Qed.

Lemma to_cpy_ver_of_numbers_witness :
  to_cpy_ver (str "3.12") = Return (str "cp312")
  /\ to_cpy_ver (str "3.10.19") = Return (str "cp310").
Proof.
  split.
  - apply (to_cpy_ver_of_numbers 3 12 []);
      [vm_compute; discriminate|vm_compute; discriminate|].
    left. reflexivity.
  - apply (to_cpy_ver_of_numbers 3 10 (str ".19"));
      [vm_compute; discriminate|vm_compute; discriminate|].
    right. eexists. reflexivity.
Defined.

(** ** The repair step *)

(** [subprocess.run(cmd, check=True, env=env)] once the process is there. *)
Lemma subprocess_run_spec (cmd : list text) (env : option dict_ref)
  (w : World) (c : child) :
  spawn (host w) (length (launched w)) cmd (child_env env w) None = Some c ->
  subprocess_run cmd env w
  = (if returncode c =? 0 then Return tt
     else Raise (CalledProcessError (returncode c) cmd),
     set_files (child_files c (files w))
       (launch_recorded cmd env None inherited inherited w)).
Proof.
  intros Hs. unfold subprocess_run.
  erewrite bind_Return; [|apply Popen_spawned; exact Hs].
  erewrite bind_Return; [|reflexivity].
  cbn [p_child]. destruct (returncode c =? 0); reflexivity.
Qed.

(** [fix_wheel] up to its first launch. *)
Lemma fix_wheel_prelude (path jax_path : text) (w : World) :
  fix_wheel path jax_path w
  = match environ w !! str "PATH" with
    | Some old =>
      (subprocess_run [str "pip"; str "install"; str "auditwheel>=6"]
         (Some (dict_obj (fresh (dom (dicts w)))));;
       subprocess_run
         [str "python";
          os_path.join jax_path [str "build/rocm/tools/fixwheel.py"]; path]
         (Some (dict_obj (fresh (dom (dicts w))))))
        (set_dicts (<[fresh (dom (dicts w)) := fix_env old (environ w)]>
                      (dicts w)) w)
    | None =>
      (Raise (KeyError (str "PATH")),
       set_dicts (<[fresh (dom (dicts w)) := environ w]> (dicts w)) w)
    end.
Proof.
  unfold fix_wheel. cbv zeta.
  set (n := fresh (dom (dicts w))).
  erewrite bind_Return; [|reflexivity]. fold n. cbn [deref].
  unfold prepend_PATH.
  assert (Hget : getitem (dict_obj n) (str "PATH")
            (set_dicts (<[n := environ w]> (dicts w)) w)
          = (match environ w !! str "PATH" with
             | Some v => Return v
             | None => Raise (KeyError (str "PATH"))
             end, set_dicts (<[n := environ w]> (dicts w)) w)).
  { erewrite getitem_obj; [reflexivity|]. simpl. apply lookup_insert_eq. }
  destruct (environ w !! str "PATH") as [old|].
  - erewrite bind_Return;
      [|erewrite bind_Return; [|exact Hget];
        erewrite setitem_obj; [reflexivity|]; simpl; apply lookup_insert_eq].
    tidy_dicts. reflexivity.
  - erewrite bind_Raise; [reflexivity|].
    erewrite bind_Raise; [reflexivity|exact Hget].
Qed.

Lemma child_env_new_dict (n : nat) (d : dict) (w : World) :
  child_env (Some (dict_obj n)) (set_dicts (<[n := d]> (dicts w)) w) = d.
Proof. unfold child_env, deref. simpl. rewrite lookup_insert_eq. reflexivity. Qed.

(** X16. When the installation of the repair tool fails, [fix_wheel] raises
    [CalledProcessError] with the exit status and the [pip] command; the
    fixup script is not run (one process only was launched) and
    [os.environ] is as before. *)
Theorem fix_wheel_install_fails (path jax_path : text) (w : World) (c : child)
  (old : text) :
  environ w !! str "PATH" = Some old ->
  next_child w c ->
  returncode c <> 0 ->
  fst (fix_wheel path jax_path w)
  = Raise (CalledProcessError (returncode c)
             [str "pip"; str "install"; str "auditwheel>=6"])
  /\ launched (snd (fix_wheel path jax_path w))
     = launched w
       ++ [plain_launch [str "pip"; str "install"; str "auditwheel>=6"]
             (fresh (dom (dicts w))) (fix_env old (environ w))]
  /\ environ (snd (fix_wheel path jax_path w)) = environ w.
Proof.
  intros Hpath Hnext Hrc. rewrite fix_wheel_prelude, Hpath.
  erewrite bind_Raise.
  2: { rewrite (subprocess_run_spec _ _ _ c) by apply Hnext.
       destruct (Z.eqb_spec (returncode c) 0) as [E|_]; [contradiction|].
       reflexivity. }
  split; [reflexivity|]. split; [|reflexivity].
  cbn [snd launched set_files launch_recorded set_launched set_dicts].
  rewrite child_env_new_dict. reflexivity.
Qed.

Lemma fix_wheel_install_fails_witness :
  let w := sample_world (sample_child [] [] 1) in
  fst (fix_wheel (str "/tmp/out/pkg.whl") (str "/src/jax") w)
  = Raise (CalledProcessError 1 [str "pip"; str "install"; str "auditwheel>=6"])
  /\ (l_cmd <$> launched (snd (fix_wheel (str "/tmp/out/pkg.whl")
                               (str "/src/jax") w)))
     = [[str "pip"; str "install"; str "auditwheel>=6"]].
Proof.
  intros w.
  destruct (fix_wheel_install_fails (str "/tmp/out/pkg.whl") (str "/src/jax")
              w (sample_child [] [] 1) (str "/usr/bin") eq_refl
              (fun _ _ _ => eq_refl) ltac:(discriminate)) as (H1 & H2 & _).
  split; [exact H1|]. rewrite H2. reflexivity.
Defined.

(** X17. When both tools exit with status 0, [fix_wheel] returns after
    exactly two launches, in this order: [pip install auditwheel>=6], then
    the fixup script of the source tree on the wheel.  Both get the same new
    [dict], which holds the parent's variables with the CPython 3.10
    directory in front of [PATH] and nothing else changed; neither has a
    working directory or a pipe; [os.environ] is as before. *)
Theorem fix_wheel_runs_two_tools (path jax_path : text) (w : World)
  (c1 c2 : child) (old : text) :
  environ w !! str "PATH" = Some old ->
  later_child w 0 c1 ->
  later_child w 1 c2 ->
  returncode c1 = 0 ->
  returncode c2 = 0 ->
  fst (fix_wheel path jax_path w) = Return tt
  /\ launched (snd (fix_wheel path jax_path w))
     = launched w
       ++ [plain_launch [str "pip"; str "install"; str "auditwheel>=6"]
             (fresh (dom (dicts w))) (fix_env old (environ w));
           plain_launch
             [str "python";
              os_path.join jax_path [str "build/rocm/tools/fixwheel.py"];
              path]
             (fresh (dom (dicts w))) (fix_env old (environ w))]
  /\ dicts w !! fresh (dom (dicts w)) = None
  /\ environ (snd (fix_wheel path jax_path w)) = environ w
  /\ files (snd (fix_wheel path jax_path w))
     = child_files c2 (child_files c1 (files w)).
Proof.
  intros Hpath H1 H2 Hrc1 Hrc2. rewrite fix_wheel_prelude, Hpath.
  erewrite bind_Return.
  2: { rewrite (subprocess_run_spec _ _ _ c1).
       - rewrite Hrc1. reflexivity.
       - cbn [host launched set_dicts].
         rewrite <- (Nat.add_0_r (length (launched w))). apply H1. }
  rewrite (subprocess_run_spec _ _ _ c2).
  2: { cbn [host launched set_files launch_recorded set_launched set_dicts].
       rewrite length_app. cbn [length]. apply H2. }
  rewrite Hrc2. split; [reflexivity|]. split; [|split; [|split]].
  - unfold launch_recorded, child_env, deref.
    cbn [snd launched dicts set_files set_launched set_dicts].
    rewrite !lookup_insert_eq, <- app_assoc. reflexivity.
  - apply fresh_dict_unused.
  - reflexivity.
  - reflexivity.
Qed.

Lemma fix_wheel_runs_two_tools_witness :
  let w := two_step_world (sample_child [] [] 0) good_child in
  fst (fix_wheel (str "/tmp/out/pkg.whl") (str "/src/jax") w) = Return tt
  /\ (l_cmd <$> launched (snd (fix_wheel (str "/tmp/out/pkg.whl")
                               (str "/src/jax") w)))
     = [[str "pip"; str "install"; str "auditwheel>=6"];
        [str "python"; str "/src/jax/build/rocm/tools/fixwheel.py";
         str "/tmp/out/pkg.whl"]].
Proof.
  intros w.
  destruct (fix_wheel_runs_two_tools (str "/tmp/out/pkg.whl") (str "/src/jax")
              w (sample_child [] [] 0) good_child (str "/usr/bin") eq_refl
              (fun _ _ _ => eq_refl) (fun _ _ _ => eq_refl) eq_refl eq_refl)
    as (H1 & H2 & _).
  split; [exact H1|]. rewrite H2. reflexivity.
Defined.

(** ** The entry point, further *)

Lemma bind_Raise_fst {A B : Type} (m : M A) (f : A -> M B) (w : World) (e : exn) :
  fst (m w) = Raise e -> (m ≫= f) w = (Raise e, snd (m w)).
Proof.
  intros H. unfold mbind, M_bind. destruct (m w) as [[a|e'] w']; simpl in *.
  - discriminate.
  - injection H as ->. reflexivity.
Qed.

(** [build_rocm_path] reads the files and the host only, and changes
    nothing. *)
Lemma build_rocm_path_frame (v rp : text) (w w' : World) :
  files w' = files w -> host w' = host w ->
  fst (build_rocm_path v w) = Return rp ->
  build_rocm_path v w' = (Return rp, w').
Proof.
  intros Hf Hh. unfold build_rocm_path, mbind, M_bind, exists_, os_realpath.
  cbv zeta beta. rewrite Hf, Hh.
  destruct (bool_decide _ || _); simpl; rewrite ?Hh; intros [= <-];
    reflexivity.
Qed.

(** [main] up to the configuration of the targets. *)
Lemma main_prologue (w : World) (s jp : text) (k : Namespace -> list text -> M unit) :
  cl_python_versions (sys_argv (host w)) = Some s ->
  cl_jax_path (sys_argv (host w)) = Some jp ->
  (args ← parse_args;
   python_versions ← split_method (python_versions args) 44;
   print (Fmt "ROCM_VERSION=%s" [VStr (rocm_version args)]);;
   print (Fmt "PYTHON_VERSIONS=%r" [VStrs python_versions]);;
   print (Fmt "JAX_PATH=%s" [VStr (jax_path args)]);;
   print (Fmt "XLA_PATH=%s" [opt_val (xla_path args)]);;
   k args python_versions) w
  = k (namespace_of (sys_argv (host w)) s jp) (split 44 s)
      (set_out (out w ++ banner (namespace_of (sys_argv (host w)) s jp)
                           (split 44 s)) w).
Proof.
  intros Hs Hjp.
  erewrite bind_Return;
    [|unfold parse_args; rewrite Hjp, Hs; reflexivity].
  fold (namespace_of (sys_argv (host w)) s jp).
  erewrite bind_Return; [|reflexivity].
  do 4 (erewrite bind_Return; [|reflexivity]).
  f_equal. destruct w. unfold set_out, banner. cbn.
  rewrite <- !app_assoc. reflexivity.
Qed.

(** X18. When the target list cannot be opened for writing, [main] stops
    there: it raises the error of [open], having printed its four lines and
    nothing more; no file is changed and no process is launched. *)
Theorem main_stops_when_targets_unwritable (w : World) (s jp rp : text) :
  let ns := namespace_of (sys_argv (host w)) s jp in
  let target_fp := os_path.join rp [str "bin/target.lst"] in
  cl_python_versions (sys_argv (host w)) = Some s ->
  cl_jax_path (sys_argv (host w)) = Some jp ->
  fst (build_rocm_path (rocm_version ns) w) = Return rp ->
  can_open w target_fp = false ->
  fst (main w) = Raise (OSError target_fp)
  /\ out (snd (main w)) = out w ++ banner ns (split 44 s)
  /\ files (snd (main w)) = files w
  /\ launched (snd (main w)) = launched w.
Proof.
  intros ns target_fp Hs Hjp Hrp Hopen. unfold main.
  rewrite (main_prologue w s jp
             (fun args python_versions =>
                rocm_path ← build_rocm_path (rocm_version args); _)
             Hs Hjp).
  fold ns.
  erewrite bind_Return;
    [|apply (build_rocm_path_frame _ rp w); [reflexivity|reflexivity|exact Hrp]].
  erewrite bind_Raise.
  2: { rewrite update_rocm_targets_spec. fold target_fp.
       change (can_open (set_out _ w) target_fp) with (can_open w target_fp).
       rewrite Hopen. reflexivity. }
  auto.
Qed.

Lemma main_stops_when_targets_unwritable_witness :
  let w := set_writable (fun _ => false) good_world in
  fst (main w) = Raise (OSError (str "/opt/rocm/bin/target.lst"))
  /\ launched (snd (main w)) = [].
Proof.
  intros w.
  destruct (main_stops_when_targets_unwritable w (str "3.10,3.12")
              (str "/src/jax") (str "/opt/rocm")
              eq_refl eq_refl eq_refl eq_refl) as (H1 & _ & _ & H4).
  split; [exact H1|exact H4].
Defined.

(** A native build whose child exits with a nonzero status: the driver
    raises the error of the runner, after one launch. *)
Lemma jaxlib_build_fails (jax_path rocm_path python_version : text)
  (xla_path : option text) (w : World) (c : child) (cpy old : text) :
  to_cpy_ver python_version = Return cpy ->
  environ w !! str "PATH" = Some old ->
  next_child w c ->
  forallb decodes (chunks_read (child_stderr c)) = true ->
  returncode c <> 0 ->
  fst (build_jaxlib_wheel jax_path rocm_path python_version xla_path w)
  = Raise (Exception (Fmt "Child process exited with nonzero result: rc=%d"
                        [VInt (returncode c)]))
  /\ length (launched (snd (build_jaxlib_wheel jax_path rocm_path
                              python_version xla_path w)))
     = S (length (launched w)).
Proof.
  intros Hcpy Hpath Hnext Hdec Hrc.
  destruct (jaxlib_driver_runs jax_path rocm_path python_version xla_path w
              cpy old Hcpy Hpath) as (cmd & m & _ & ->).
  rewrite (run_scan_launched _ _ _ _ _ _ c (next_child_launches _ _ _ _ _ _ _ _ Hnext)).
  rewrite scan_outcome_launched.
  unfold scan_outcome, captured_pipe.
  rewrite decide_True by reflexivity. rewrite Hdec.
  destruct (Z.eqb_spec (returncode c) 0) as [E|_]; [contradiction|].
  split; [reflexivity|].
  cbn [launched launch_recorded set_launched overlay_built set_log set_dicts].
  rewrite length_app. simpl. lia.
Qed.

(** X19. Nothing is retried and nothing is skipped over: when the native
    build for the first version exits with a nonzero status, [main] raises
    the error that carries this status after exactly one launch; no repair
    step is run, no other version is built, the pure wheel is not built. *)
Theorem main_stops_at_first_failed_build (w : World) (s jp rp py cpy old : text)
  (others : list text) (c : child) :
  let ns := namespace_of (sys_argv (host w)) s jp in
  cl_python_versions (sys_argv (host w)) = Some s ->
  cl_jax_path (sys_argv (host w)) = Some jp ->
  fst (build_rocm_path (rocm_version ns) w) = Return rp ->
  can_open w (os_path.join rp [str "bin/target.lst"]) = true ->
  can_open w (os_path.join rp [str ".info/version"]) = true ->
  split 44 s = py :: others ->
  to_cpy_ver py = Return cpy ->
  environ w !! str "PATH" = Some old ->
  next_child w c ->
  forallb decodes (chunks_read (child_stderr c)) = true ->
  returncode c <> 0 ->
  fst (main w)
  = Raise (Exception (Fmt "Child process exited with nonzero result: rc=%d"
                        [VInt (returncode c)]))
  /\ length (launched (snd (main w))) = S (length (launched w)).
Proof.
  intros ns Hs Hjp Hrp Ht Hv Hsplit Hcpy Hpath Hnext Hdec Hrc. unfold main.
  rewrite (main_prologue w s jp
             (fun args python_versions =>
                rocm_path ← build_rocm_path (rocm_version args); _)
             Hs Hjp).
  fold ns. rewrite Hsplit.
  erewrite bind_Return;
    [|apply (build_rocm_path_frame _ rp w); [reflexivity|reflexivity|exact Hrp]].
  set (w1 := set_out (out w ++ banner ns (py :: others)) w).
  assert (Hup : exists w2 : World,
            update_rocm_targets rp GPU_DEVICE_TARGETS w1 = (Return tt, w2)
            /\ host w2 = host w /\ launched w2 = launched w
            /\ environ w2 = environ w).
  { rewrite update_rocm_targets_spec.
    change (can_open w1 (os_path.join rp [str "bin/target.lst"]))
      with (can_open w (os_path.join rp [str "bin/target.lst"])).
    change (can_open w1 (os_path.join rp [str ".info/version"]))
      with (can_open w (os_path.join rp [str ".info/version"])).
    rewrite Ht, Hv.
    destruct (files w1 !! os_path.join rp [str ".info/version"]);
      eexists; (split; [reflexivity|]); auto. }
  destruct Hup as (w2 & Hup & Hh & Hl & He).
  erewrite bind_Return; [|exact Hup].
  assert (Hnext2 : next_child w2 c).
  { intros cmd vars cwd. rewrite Hh, Hl. apply Hnext. }
  assert (Hpath2 : environ w2 !! str "PATH" = Some old)
    by (rewrite He; exact Hpath).
  destruct (jaxlib_build_fails (jax_path ns) rp py (xla_path ns) w2 c cpy old
              Hcpy Hpath2 Hnext2 Hdec Hrc) as [Hfst Hlen].
  erewrite bind_Raise_fst.
  2: { cbn [for_each]. erewrite bind_Raise_fst; [reflexivity|].
       erewrite bind_Raise_fst; [reflexivity|exact Hfst]. }
  split; [reflexivity|].
  cbn [snd for_each].
  rewrite (bind_Raise_fst _ _ w2 _
             ltac:(erewrite bind_Raise_fst; [reflexivity|exact Hfst])).
  rewrite (bind_Raise_fst _ _ w2 _ Hfst).
  cbn [snd]. rewrite Hlen, Hl. reflexivity.
Qed.

Lemma main_stops_at_first_failed_build_witness :
  let c := sample_child [] [Some wheel_line] 2 in
  let w := two_step_world c good_child in
  fst (main w)
  = Raise (Exception (Fmt "Child process exited with nonzero result: rc=%d"
                        [VInt 2]))
  /\ length (launched (snd (main w))) = 1%nat.
Proof.
  intros c w.
  apply (main_stops_at_first_failed_build w (str "3.10,3.12") (str "/src/jax")
           (str "/opt/rocm") (str "3.10") (str "cp310") (str "/usr/bin")
           [str "3.12"] c);
    [reflexivity|reflexivity|reflexivity|reflexivity|reflexivity|reflexivity
    |reflexivity|reflexivity| |reflexivity|discriminate].
  intros cmd vars cwd. reflexivity.
Defined.

(** ** The entry point, to its end *)

(** The configuration of the targets after the four lines were printed. *)
Lemma update_rocm_targets_after_print (rp targets : text) (o : list output)
  (w : World) :
  can_open w (os_path.join rp [str "bin/target.lst"]) = true ->
  can_open w (os_path.join rp [str ".info/version"]) = true ->
  exists w2 : World,
    update_rocm_targets rp targets (set_out o w) = (Return tt, w2)
    /\ host w2 = host w /\ launched w2 = launched w
    /\ environ w2 = environ w
    /\ files w2 = files (snd (update_rocm_targets rp targets w)).
Proof.
  intros Ht Hv. rewrite !update_rocm_targets_spec.
  change (can_open (set_out o w) (os_path.join rp [str "bin/target.lst"]))
    with (can_open w (os_path.join rp [str "bin/target.lst"])).
  change (can_open (set_out o w) (os_path.join rp [str ".info/version"]))
    with (can_open w (os_path.join rp [str ".info/version"])).
  rewrite Ht, Hv. change (files (set_out o w)) with (files w).
  destruct (files w !! os_path.join rp [str ".info/version"]);
    eexists; (split; [reflexivity|]); auto.
Qed.







(** X20. The versions are looked at late: when the first requested version
    is one [to_cpy_ver] refuses, [main] raises the exception of
    [to_cpy_ver] without launching anything, but only after it has
    rewritten the target list and created the version marker of the
    toolkit. *)
Theorem main_checks_versions_late (w : World) (s jp rp py : text)
  (others : list text) (e : exn) :
  let ns := namespace_of (sys_argv (host w)) s jp in
  cl_python_versions (sys_argv (host w)) = Some s ->
  cl_jax_path (sys_argv (host w)) = Some jp ->
  fst (build_rocm_path (rocm_version ns) w) = Return rp ->
  can_open w (os_path.join rp [str "bin/target.lst"]) = true ->
  can_open w (os_path.join rp [str ".info/version"]) = true ->
  split 44 s = py :: others ->
  to_cpy_ver py = Raise e ->
  fst (main w) = Raise e
  /\ launched (snd (main w)) = launched w
  /\ files (snd (main w))
     = files (snd (update_rocm_targets rp GPU_DEVICE_TARGETS w))
  /\ files (snd (main w)) !! os_path.join rp [str "bin/target.lst"]
     = Some (GPU_DEVICE_TARGETS ++ [NL]).
Proof.
  intros ns Hs Hjp Hrp Ht Hv Hsplit He. unfold main.
  rewrite (main_prologue w s jp
             (fun args python_versions =>
                rocm_path ← build_rocm_path (rocm_version args); _)
             Hs Hjp).
  fold ns. rewrite Hsplit.
  erewrite bind_Return;
    [|apply (build_rocm_path_frame _ rp w); [reflexivity|reflexivity|exact Hrp]].
  destruct (update_rocm_targets_after_print rp GPU_DEVICE_TARGETS
              (out w ++ banner ns (py :: others)) w Ht Hv)
    as (w2 & Hup & Hh & Hl & _ & Hf).
  erewrite bind_Return; [|exact Hup].
  erewrite bind_Raise.
  2: { cbn [for_each]. erewrite bind_Raise; [reflexivity|].
       erewrite bind_Raise; [reflexivity|].
       apply (proj1 (jaxlib_driver_early (jax_path ns) rp py (xla_path ns) w2)).
       exact He. }
  cbn [fst snd]. rewrite Hl, Hf. repeat split.
  rewrite update_rocm_targets_spec, Ht, Hv.
  destruct (files w !! os_path.join rp [str ".info/version"]);
    cbn [snd files set_files].
  - apply lookup_insert_eq.
  - rewrite lookup_insert_ne by (symmetry; apply target_and_version_differ).
    apply lookup_insert_eq.
Qed.

Lemma main_checks_versions_late_witness :
  let w := with_versions (str "310,3.12") good_world in
  fst (main w) = Raise IndexError
  /\ launched (snd (main w)) = []
  /\ files (snd (main w)) !! str "/opt/rocm/bin/target.lst"
     = Some (GPU_DEVICE_TARGETS ++ [NL]).
Proof.
  intros w.
  destruct (main_checks_versions_late w (str "310,3.12") (str "/src/jax")
              (str "/opt/rocm") (str "310") [str "3.12"] IndexError
              eq_refl eq_refl eq_refl eq_refl eq_refl eq_refl eq_refl)
    as (H1 & H2 & _ & H4).
  split; [exact H1|]. split; [exact H2|exact H4].
Defined.


